(** * Text-to-structure reconstruction: [convertTextToHTML] of server.js

    A shallow embedding of the helper that turns text extracted from a PDF
    into HTML ([convertTextToHTML], [isHeader], [getHeaderLevel],
    [isListItem], [escapeHtml]) together with the properties of its
    line classification, block building and escaping.

    JavaScript strings are sequences of UTF-16 code units: a string is a
    [list Z] here, [length] is the JavaScript [.length], and the regular
    expressions of the source (none has the [u] flag) work on code units. *)

From Stdlib Require Import String Ascii.
From Stdlib Require Import List ZArith Bool Lia.
Import ListNotations.
Open Scope Z_scope.

(** ** JavaScript strings *)

Module JsString.

Definition jsstring := list Z.

(** An ASCII literal as a JavaScript string. *)
Definition js (s : string) : jsstring :=
  map (fun a => Z.of_N (N_of_ascii a)) (list_ascii_of_string s).

Definition isEmpty (s : jsstring) : bool :=
  match s with [] => true | _ :: _ => false end.

(** WhiteSpace and LineTerminator code points of ECMAScript: what
    [String.prototype.trim] removes and what [\s] matches. *)
Definition isWhiteSpace (c : Z) : bool :=
  (c =? 9) || (c =? 10) || (c =? 11) || (c =? 12) || (c =? 13) || (c =? 32)
  || (c =? 160) || (c =? 5760) || ((8192 <=? c) && (c <=? 8202))
  || (c =? 8232) || (c =? 8233) || (c =? 8239) || (c =? 8287)
  || (c =? 12288) || (c =? 65279).

Fixpoint dropWhile (p : Z -> bool) (s : jsstring) : jsstring :=
  match s with
  | [] => []
  | c :: s' => if p c then dropWhile p s' else s
  end.

Definition trimStart (s : jsstring) : jsstring := dropWhile isWhiteSpace s.
Definition trimEnd (s : jsstring) : jsstring := rev (dropWhile isWhiteSpace (rev s)).
Definition trim (s : jsstring) : jsstring := trimEnd (trimStart s).

(** [text.split('\n')]: the pieces between line feeds (code unit 10); the
    result is never empty, the empty string gives one empty piece. *)
Fixpoint split_nl (s : jsstring) : list jsstring :=
  match s with
  | [] => [[]]
  | c :: s' =>
      if c =? 10 then [] :: split_nl s'
      else match split_nl s' with
           | l :: ls => (c :: l) :: ls
           | [] => [[c]]
           end
  end.

(** The line feed, as a string. *)
Definition nl : jsstring := [10].

End JsString.
Export JsString.

(** ** Regular expressions

    The patterns of the source are all anchored at [^]; [test] only asks
    whether some match exists, so the matcher decides membership in the
    language of the pattern (by derivatives) and is proved against the
    usual inductive semantics below. *)

Module Regex.

Inductive re : Type :=
| Void : re
| Eps : re
| Cls : (Z -> bool) -> re
| Seq : re -> re -> re
| Alt : re -> re -> re
| Star : re -> re.

Definition Plus (r : re) : re := Seq r (Star r).

Inductive matches : re -> jsstring -> Prop :=
| MEps : matches Eps []
| MCls : forall (p : Z -> bool) c, p c = true -> matches (Cls p) [c]
| MSeq : forall r1 r2 s1 s2,
    matches r1 s1 -> matches r2 s2 -> matches (Seq r1 r2) (s1 ++ s2)
| MAltL : forall r1 r2 s, matches r1 s -> matches (Alt r1 r2) s
| MAltR : forall r1 r2 s, matches r2 s -> matches (Alt r1 r2) s
| MStarNil : forall r, matches (Star r) []
| MStarCons : forall r s1 s2,
    matches r s1 -> matches (Star r) s2 -> matches (Star r) (s1 ++ s2).

Fixpoint nullable (r : re) : bool :=
  match r with
  | Void => false
  | Eps => true
  | Cls _ => false
  | Seq a b => nullable a && nullable b
  | Alt a b => nullable a || nullable b
  | Star _ => true
  end.

Fixpoint deriv (r : re) (c : Z) : re :=
  match r with
  | Void => Void
  | Eps => Void
  | Cls p => if p c then Eps else Void
  | Seq a b =>
      if nullable a then Alt (Seq (deriv a c) b) (deriv b c)
      else Seq (deriv a c) b
  | Alt a b => Alt (deriv a c) (deriv b c)
  | Star a => Seq (deriv a c) (Star a)
  end.

(** [/^r$/.test(s)]: the whole string is in the language of [r]. *)
Fixpoint test_full (r : re) (s : jsstring) : bool :=
  match s with
  | [] => nullable r
  | c :: s' => test_full (deriv r c) s'
  end.

(** [/^r/.test(s)]: some prefix of the string is in the language of [r]. *)
Fixpoint test_prefix (r : re) (s : jsstring) : bool :=
  nullable r ||
  match s with
  | [] => false
  | c :: s' => test_prefix (deriv r c) s'
  end.

(** A regular expression that syntactically matches nothing. *)
Fixpoint dead (r : re) : bool :=
  match r with
  | Void => true
  | Seq a b => dead a || dead b
  | Alt a b => dead a && dead b
  | _ => false
  end.

(** Whether [c] can be the first unit of a non-empty match. *)
Fixpoint firstOk (r : re) (c : Z) : bool :=
  match r with
  | Void => false
  | Eps => false
  | Cls p => p c
  | Seq a b => firstOk a c || (nullable a && firstOk b c)
  | Alt a b => firstOk a c || firstOk b c
  | Star a => firstOk a c
  end.

(** Character classes. *)
Definition chr (k : Z) : Z -> bool := fun c => c =? k.
Definition range (lo hi : Z) : Z -> bool := fun c => (lo <=? c) && (c <=? hi).
Definition upper : Z -> bool := range 65 90.     (* [A-Z] *)
Definition lower : Z -> bool := range 97 122.    (* [a-z] *)
Definition digit : Z -> bool := range 48 57.     (* \d *)
Definition space : Z -> bool := isWhiteSpace.    (* \s *)
Definition cor (p q : Z -> bool) : Z -> bool := fun c => p c || q c.

(** An ASCII letter under the [i] flag: the letter in either case.  Without
    the [u] flag no code unit above 127 canonicalizes to an ASCII letter. *)
Definition ci (k : Z) : Z -> bool :=
  fun c =>
    (c =? k)
    || (if upper k then c =? k + 32 else if lower k then c =? k - 32 else false).

(** A literal word under the [i] flag. *)
Fixpoint word_ci (w : jsstring) : re :=
  match w with
  | [] => Eps
  | k :: w' => Seq (Cls (ci k)) (word_ci w')
  end.

End Regex.
Import Regex.

(** ** The program *)

Module Converter.

(** *** [escapeHtml] *)

(** The object [map] of [escapeHtml], keyed by the one-unit strings
    [&], [<], [>], the double quote (34) and the apostrophe (39). *)
Definition escapeMap : list (Z * jsstring) :=
  [ (38, js "&amp;"); (60, js "&lt;"); (62, js "&gt;");
    (34, js "&quot;"); (39, js "&#039;") ].

Fixpoint lookup (m : list (Z * jsstring)) (k : Z) : option jsstring :=
  match m with
  | [] => None
  | (k', v) :: m' => if k =? k' then Some v else lookup m' k
  end.

(** The class of the global pattern: ampersand, less-than, greater-than,
    double quote, apostrophe. *)
Definition escapeClass (c : Z) : bool :=
  (c =? 38) || (c =? 60) || (c =? 62) || (c =? 34) || (c =? 39).

(** [text.replace(/[cls]/g, f)] for a class of single code units: every
    unit of the class is replaced by [f] of it, left to right. *)
Fixpoint replaceAll (cls : Z -> bool) (f : Z -> jsstring) (text : jsstring)
  : jsstring :=
  match text with
  | [] => []
  | c :: text' =>
      (if cls c then f c else [c]) ++ replaceAll cls f text'
  end.

Definition escapeHtml (text : jsstring) : jsstring :=
  replaceAll escapeClass
    (fun m => match lookup escapeMap m with
              | Some r => r
              | None => js "undefined"
              end)
    text.

(** *** [isHeader] *)

Definition reAllCaps : re :=                       (* /^[A-Z][A-Z\s]+$/ *)
  Seq (Cls upper) (Plus (Cls (cor upper space))).
Definition reTitleCase : re :=     (* /^[A-Z][a-z]+(\s+[A-Z][a-z]+)*$/ *)
  Seq (Cls upper)
    (Seq (Plus (Cls lower))
       (Star (Seq (Plus (Cls space)) (Seq (Cls upper) (Plus (Cls lower)))))).
Definition reNumbered : re :=                      (* /^\d+\.\s+[A-Z]/ *)
  Seq (Plus (Cls digit)) (Seq (Cls (chr 46)) (Seq (Plus (Cls space)) (Cls upper))).
Definition romanClass : Z -> bool :=               (* [IVX] *)
  cor (chr 73) (cor (chr 86) (chr 88)).
Definition reRoman : re :=                         (* /^[IVX]+\.\s+[A-Z]/ *)
  Seq (Plus (Cls romanClass))
    (Seq (Cls (chr 46)) (Seq (Plus (Cls space)) (Cls upper))).
Definition reChapter : re :=                       (* /^Chapter\s+\d+/i *)
  Seq (word_ci (js "Chapter")) (Seq (Plus (Cls space)) (Plus (Cls digit))).
Definition reSection : re :=                       (* /^Section\s+\d+/i *)
  Seq (word_ci (js "Section")) (Seq (Plus (Cls space)) (Plus (Cls digit))).

Definition isAllCaps (line : jsstring) : bool := test_full reAllCaps line.
Definition isTitleCase (line : jsstring) : bool := test_full reTitleCase line.
Definition isNumbered (line : jsstring) : bool := test_prefix reNumbered line.
Definition isRoman (line : jsstring) : bool := test_prefix reRoman line.
Definition isChapter (line : jsstring) : bool := test_prefix reChapter line.
Definition isSection (line : jsstring) : bool := test_prefix reSection line.

(** [headerPatterns], in the order of the source. *)
Definition headerPatterns : list (jsstring -> bool) :=
  [ isAllCaps; isTitleCase; isNumbered; isRoman; isChapter; isSection ].

(** [isHeader(line, allLines, currentIndex)].  [None] is the [TypeError] of
    calling [.trim()] on [undefined], were the index out of range. *)
Definition isHeader (line : jsstring) (allLines : list jsstring)
    (currentIndex : nat) : option bool :=
  if (100 <? length line)%nat then Some false
  else
    let followed :=
      if Z.of_nat currentIndex <? Z.of_nat (length allLines) - 1 then
        match nth_error allLines (currentIndex + 1) with
        | Some next =>
            let nextLine := trim next in
            Some (length line * 2 <? length nextLine)%nat
        | None => None
        end
      else Some false in
    match followed with
    | None => None
    | Some true => Some true
    | Some false => Some (existsb (fun pattern => pattern line) headerPatterns)
    end.

(** *** [getHeaderLevel] *)

Definition getHeaderLevel (line : jsstring) : Z :=
  if isAllCaps line then 1
  else if isNumbered line then 2
  else if isRoman line then 2
  else if isChapter line then 1
  else if isSection line then 2
  else 3.

(** *** [isListItem] *)

(** The class written between [\s] and [\-] in the two bullet patterns of
    the source file: the code units U+201A, U+00C4, U+00A2, then [-], [*]. *)
Definition bulletClass (c : Z) : bool :=
  (c =? 8218) || (c =? 196) || (c =? 162) || (c =? 45) || (c =? 42).

Definition reBullet : re :=                        (* /^[\s]*[...\-\*]\s+/ *)
  Seq (Star (Cls space)) (Seq (Cls bulletClass) (Plus (Cls space))).
Definition reNumberedItem : re :=                  (* /^[\s]*\d+\.\s+/ *)
  Seq (Star (Cls space))
    (Seq (Plus (Cls digit)) (Seq (Cls (chr 46)) (Plus (Cls space)))).
Definition reLetteredItem : re :=                  (* /^[\s]*[a-z]\.\s+/ *)
  Seq (Star (Cls space))
    (Seq (Cls lower) (Seq (Cls (chr 46)) (Plus (Cls space)))).

Definition listPatterns : list (jsstring -> bool) :=
  [ test_prefix reBullet; test_prefix reNumberedItem; test_prefix reLetteredItem ].

Definition isListItem (line : jsstring) : bool :=
  existsb (fun pattern => pattern line) listPatterns.

(** [line.replace(/^[\s...\-\*]+/, '').trim()]: the greedy [+] over one
    class, anchored at the start, removes the longest leading run of the
    class (nothing when the run is empty). *)
Definition stripClass : Z -> bool := cor space bulletClass.
Definition listItemText (line : jsstring) : jsstring :=
  trim (dropWhile stripClass line).

(** *** [convertTextToHTML] *)

Record state : Type := mkState
  { html : jsstring; inList : bool; inParagraph : bool }.

Definition emit (st : state) (s : jsstring) : state :=
  mkState (html st ++ s) (inList st) (inParagraph st).

Definition closeParagraph (st : state) : state :=
  if inParagraph st then mkState (html st ++ js "</p>") (inList st) false
  else st.

Definition closeList (st : state) : state :=
  if inList st then mkState (html st ++ js "</ul>") false (inParagraph st)
  else st.

(** A header level inside a template literal: a one-digit number. *)
Definition levelString (n : Z) : jsstring := [48 + n].

(** One iteration of the [for] loop, at index [i].  [None] is a
    [TypeError]: [lines[i]] undefined, or [isHeader] failing. *)
Definition processLine (lines : list jsstring) (i : nat) (st : state)
  : option state :=
  match nth_error lines i with
  | None => None
  | Some raw =>
      let line := trim raw in
      if isEmpty line then Some (closeList (closeParagraph st))
      else
        match isHeader line lines i with
        | None => None
        | Some true =>
            let st := closeList (closeParagraph st) in
            let headerLevel := getHeaderLevel line in
            Some (emit st (js "<h" ++ levelString headerLevel ++ js ">"
                           ++ escapeHtml line
                           ++ js "</h" ++ levelString headerLevel ++ js ">"))
        | Some false =>
            if isListItem line then
              let st := closeParagraph st in
              let st :=
                if negb (inList st)
                then mkState (html st ++ js "<ul>") true (inParagraph st)
                else st in
              let listItem := listItemText line in
              Some (emit st (js "<li>" ++ escapeHtml listItem ++ js "</li>"))
            else
              let st :=
                if negb (inParagraph st)
                then mkState (html st ++ js "<p>") (inList st) true
                else st in
              Some (emit st (escapeHtml line ++ js " "))
        end
  end.

(** [for (let i = 0; i < lines.length; i++)]: [n] iterations from index [i]. *)
Fixpoint loop (lines : list jsstring) (n : nat) (i : nat) (st : state)
  : option state :=
  match n with
  | O => Some st
  | S n' =>
      match processLine lines i st with
      | None => None
      | Some st' => loop lines n' (S i) st'
      end
  end.

Definition initial : state := mkState [] false false.

(** [text.split('\n').filter(line => line.trim() !== '')] *)
Definition nonBlankLines (text : jsstring) : list jsstring :=
  filter (fun line => negb (isEmpty (trim line))) (split_nl text).

Definition noTextFound : jsstring := js "<p>No text content found in the PDF.</p>".
Definition noContent : jsstring :=
  js "<p>No content could be extracted from the PDF.</p>".

(** The state when the loop is left. *)
Definition build (text : jsstring) : option state :=
  let lines := nonBlankLines text in
  loop lines (length lines) 0 initial.

Definition convertTextToHTML (text : jsstring) : option jsstring :=
  if isEmpty text || isEmpty (trim text) then Some noTextFound
  else
    match build text with
    | None => None
    | Some st =>
        let st := closeParagraph st in
        let st := closeList st in
        Some (if isEmpty (html st) then noContent else html st)
    end.

End Converter.
Import Converter.

(** ** Line roles and block structure *)

Module Structure.

(** The role the loop gives to a line: the branch it takes. *)
Inductive LineRole : Type :=
| Blank : LineRole
| Heading : Z -> LineRole
| ListItem : LineRole
| ParagraphText : LineRole.

(** The tests of the loop body, in their order, at index [i]. *)
Definition classify (lines : list jsstring) (i : nat) : option LineRole :=
  match nth_error lines i with
  | None => None
  | Some raw =>
      let line := trim raw in
      if isEmpty line then Some Blank
      else
        match isHeader line lines i with
        | None => None
        | Some true => Some (Heading (getHeaderLevel line))
        | Some false =>
            if isListItem line then Some ListItem else Some ParagraphText
        end
  end.

Definition isParagraphText (r : option LineRole) : bool :=
  match r with Some ParagraphText => true | _ => false end.

(** Every line is a heading or a paragraph line, and no two paragraph
    lines are adjacent: no list is built and no two lines are merged. *)
Definition loneAt (lines : list jsstring) (i : nat) : bool :=
  match classify lines i with
  | Some (Heading _) => true
  | Some ParagraphText => negb (isParagraphText (classify lines (S i)))
  | _ => false
  end.

Definition headingsAndLoneParagraphs (lines : list jsstring) : bool :=
  forallb (loneAt lines) (seq 0 (length lines)).

(** A unit at which the text of a bullet item certainly starts: not white
    space, not a hyphen or an asterisk, and neither the bullet glyph
    U+2022 nor one of the three units (U+201A, U+00C4, U+00A2) that stand
    in its place in the classes of the source file. *)
Definition ordinaryStart (c : Z) : bool :=
  negb (isWhiteSpace c || (c =? 45) || (c =? 42) || (c =? 8226)
        || (c =? 8218) || (c =? 196) || (c =? 162)).

(** The element written for the line at index [i] when the line stands
    alone in its block: a heading, or a paragraph of one line. *)
Definition blockAt (lines : list jsstring) (i : nat) : jsstring :=
  match classify lines i, nth_error lines i with
  | Some (Heading n), Some raw =>
      js "<h" ++ levelString n ++ js ">" ++ escapeHtml (trim raw)
      ++ js "</h" ++ levelString n ++ js ">"
  | Some ParagraphText, Some raw =>
      js "<p>" ++ escapeHtml (trim raw) ++ js " " ++ js "</p>"
  | _, _ => []
  end.

(** The text inside that element. *)
Definition blockText (lines : list jsstring) (i : nat) : jsstring :=
  match classify lines i, nth_error lines i with
  | Some (Heading n), Some raw => trim raw
  | Some ParagraphText, Some raw => trim raw ++ js " "
  | _, _ => []
  end.

(** The plain text of emitted markup.  No function of the source strips
    markup; this one follows the words of the round-trip property: every
    tag, from its less-than sign to its greater-than sign, is taken out
    and a line feed is left in its place, so that the text of each
    element stands on a line of its own. *)
Fixpoint stripFrom (inTag : bool) (s : jsstring) : jsstring :=
  match s with
  | [] => []
  | c :: s' =>
      if inTag then
        if c =? 62 then nl ++ stripFrom false s' else stripFrom true s'
      else
        if c =? 60 then stripFrom true s' else c :: stripFrom false s'
  end.

Definition stripMarkup (markup : jsstring) : jsstring := stripFrom false markup.

(** The block structure of emitted markup: its tags, without the text. *)
Fixpoint tagsFrom (inTag : bool) (s : jsstring) : jsstring :=
  match s with
  | [] => []
  | c :: s' =>
      if inTag then c :: tagsFrom (negb (c =? 62)) s'
      else if c =? 60 then c :: tagsFrom true s' else tagsFrom false s'
  end.

Definition blockStructure (markup : jsstring) : jsstring := tagsFrom false markup.

(** The round-trip property, as the specification words it: for a text
    without the units that are escaped, converting the stripped output
    again gives the block structure of the first conversion. *)
Definition roundTrip (text : jsstring) : Prop :=
  forallb (fun c => negb (escapeClass c)) text = true ->
  forall out,
    convertTextToHTML text = Some out ->
    exists out',
      convertTextToHTML (stripMarkup out) = Some out' /\
      blockStructure out' = blockStructure out.

End Structure.
Import Structure.

(** ** Reading emitted markup *)

Module Markup.

Fixpoint eqs (a b : jsstring) : bool :=
  match a, b with
  | [], [] => true
  | x :: a', y :: b' => (x =? y) && eqs a' b'
  | _, _ => false
  end.

(** Where an element may be opened: [p], [ul] and the headings at the top
    level, [li] and [p] directly inside [ul], nothing deeper. *)
Definition allowedOpen (name : jsstring) (stack : list jsstring) : bool :=
  match stack with
  | [] =>
      eqs name (js "p") || eqs name (js "ul") || eqs name (js "h1")
      || eqs name (js "h2") || eqs name (js "h3")
  | [top] => eqs top (js "ul") && (eqs name (js "li") || eqs name (js "p"))
  | _ => false
  end.

(** A complete tag against the stack of open elements, innermost first:
    a closing tag must name the innermost open element. *)
Definition applyTag (name : jsstring) (stack : list jsstring)
  : option (list jsstring) :=
  match name with
  | 47 :: n =>
      match stack with
      | top :: rest => if eqs top n then Some rest else None
      | [] => None
      end
  | _ => if allowedOpen name stack then Some (name :: stack) else None
  end.

(** One pass over markup.  [tag] holds, inside a tag, the units read
    since its less-than sign, last first.  A greater-than sign outside a
    tag and a less-than sign inside one are refused. *)
Fixpoint scan (stack : list jsstring) (tag : option jsstring) (s : jsstring)
  : option (list jsstring * option jsstring) :=
  match s with
  | [] => Some (stack, tag)
  | c :: s' =>
      match tag with
      | None =>
          if c =? 60 then scan stack (Some []) s'
          else if c =? 62 then None
          else scan stack None s'
      | Some acc =>
          if c =? 62 then
            match applyTag (rev acc) stack with
            | Some stack' => scan stack' None s'
            | None => None
            end
          else if c =? 60 then None
          else scan stack (Some (c :: acc)) s'
      end
  end.

(** Every tag is complete, every element is closed in order and opened
    where [allowedOpen] lets it. *)
Definition wellNested (markup : jsstring) : bool :=
  match scan [] None markup with
  | Some ([], None) => true
  | _ => false
  end.

(** The units outside tags, and whether the markup ends inside a tag. *)
Fixpoint content (inTag : bool) (s : jsstring) : jsstring * bool :=
  match s with
  | [] => ([], inTag)
  | c :: s' =>
      if inTag then content (negb (c =? 62)) s'
      else if c =? 60 then content true s'
      else let (t, e) := content false s' in (c :: t, e)
  end.

Definition textContent (markup : jsstring) : jsstring := fst (content false markup).

(** The text the loop writes for the line at index [i]. *)
Definition leafText (lines : list jsstring) (i : nat) : jsstring :=
  match classify lines i, nth_error lines i with
  | Some (Heading _), Some raw => escapeHtml (trim raw)
  | Some ListItem, Some raw => escapeHtml (listItemText (trim raw))
  | Some ParagraphText, Some raw => escapeHtml (trim raw) ++ js " "
  | _, _ => []
  end.

(** The elements the two flags stand for, innermost first. *)
Definition openElements (st : state) : list jsstring :=
  (if inParagraph st then [js "p"] else [])
  ++ (if inList st then [js "ul"] else []).

Definition isListItemRole (r : option LineRole) : bool :=
  match r with Some ListItem => true | _ => false end.

End Markup.
Import Markup.

(** ** The matcher against the semantics of regular expressions *)

Module RegexFacts.

Lemma nullable_matches (r : re) : nullable r = true <-> matches r [].
Proof.
  split.
  - induction r; simpl; intros H; try discriminate.
    + constructor.
    + apply andb_true_iff in H as [Ha Hb].
      change (@nil Z) with (@nil Z ++ []). constructor; auto.
    + apply orb_true_iff in H as [Ha | Hb].
      * apply MAltL; auto.
      * apply MAltR; auto.
    + constructor.
  - intros H. remember [] as s eqn:Es.
    induction H; simpl; subst; try discriminate; auto.
    + apply app_eq_nil in Es as [-> ->]. rewrite IHmatches1, IHmatches2; auto.
    + rewrite IHmatches; auto.
    + rewrite IHmatches; auto using orb_true_r.
Qed.

Lemma deriv_sound (r : re) (c : Z) :
  forall s, matches (deriv r c) s -> matches r (c :: s).
Proof.
  induction r; simpl; intros s H.
  - inversion H.
  - inversion H.
  - destruct (b c) eqn:E; inversion H; subst. constructor; exact E.
  - destruct (nullable r1) eqn:N.
    + inversion H; subst.
      * match goal with X : matches (Seq _ _) _ |- _ => inversion X; subst end.
        change (c :: s1 ++ s2) with ((c :: s1) ++ s2). constructor; auto.
      * change (c :: s) with ([] ++ c :: s). constructor; auto.
        apply nullable_matches; exact N.
    + inversion H; subst.
      change (c :: s1 ++ s2) with ((c :: s1) ++ s2). constructor; auto.
  - inversion H; subst; [apply MAltL | apply MAltR]; auto.
  - inversion H; subst.
    change (c :: s1 ++ s2) with ((c :: s1) ++ s2). constructor; auto.
Qed.

Lemma deriv_complete (r : re) (c : Z) (s : jsstring) :
  matches r (c :: s) -> matches (deriv r c) s.
Proof.
  intros H. remember (c :: s) as t eqn:Et. revert s Et.
  induction H; intros u Et; simpl; try discriminate.
  - injection Et as -> <-. rewrite H. constructor.
  - destruct s1 as [|c1 s1]; simpl in Et.
    + subst s2. apply nullable_matches in H. rewrite H.
      apply MAltR. auto.
    + injection Et as -> <-.
      destruct (nullable r1); [apply MAltL |]; constructor; auto.
  - apply MAltL; auto.
  - apply MAltR; auto.
  - destruct s1 as [|c1 s1]; simpl in Et.
    + auto.
    + injection Et as -> <-. constructor; auto.
Qed.

Lemma test_full_matches (s : jsstring) :
  forall r, test_full r s = true <-> matches r s.
Proof.
  induction s as [|c s IH]; intros r; simpl.
  - apply nullable_matches.
  - rewrite IH. split; [apply deriv_sound | apply deriv_complete].
Qed.

Lemma test_prefix_matches (s : jsstring) :
  forall r,
    test_prefix r s = true <-> exists p q, s = p ++ q /\ matches r p.
Proof.
  induction s as [|c s IH]; intros r; simpl.
  - rewrite orb_false_r, nullable_matches. split.
    + intros H. exists [], []. auto.
    + intros (p & q & E & H). symmetry in E.
      apply app_eq_nil in E as [-> _]. exact H.
  - rewrite orb_true_iff, nullable_matches, IH. split.
    + intros [H | (p & q & -> & H)].
      * exists [], (c :: s). auto.
      * exists (c :: p), q. split; [reflexivity | apply deriv_sound; exact H].
    + intros (p & q & E & H). destruct p as [|c' p]; [left; exact H |].
      simpl in E. injection E as <- ->. right.
      exists p, q. split; [reflexivity | apply deriv_complete; exact H].
Qed.

Lemma dead_deriv (r : re) (c : Z) :
  dead r = true -> nullable r = false /\ dead (deriv r c) = true.
Proof.
  induction r; simpl; intros H; try discriminate.
  - auto.
  - apply orb_true_iff in H as [H | H].
    + destruct (IHr1 H) as [N D]. rewrite N. simpl. rewrite D. auto.
    + destruct (IHr2 H) as [N D]. rewrite N, andb_false_r. split; [reflexivity |].
      destruct (nullable r1); simpl; rewrite ?D, ?H; auto using orb_true_r.
      rewrite orb_true_r. reflexivity.
  - apply andb_true_iff in H as [H1 H2].
    destruct (IHr1 H1) as [N1 D1], (IHr2 H2) as [N2 D2].
    rewrite N1, N2, D1, D2. auto.
Qed.

Lemma dead_test_prefix (s : jsstring) :
  forall r, dead r = true -> test_prefix r s = false.
Proof.
  induction s as [|c s IH]; intros r H; simpl.
  - destruct (dead_deriv r 0 H) as [N _]. rewrite N. reflexivity.
  - destruct (dead_deriv r c H) as [N D]. rewrite N. simpl. auto.
Qed.

Lemma dead_test_full (s : jsstring) :
  forall r, dead r = true -> test_full r s = false.
Proof.
  induction s as [|c s IH]; intros r H; simpl.
  - destruct (dead_deriv r 0 H) as [N _]. exact N.
  - destruct (dead_deriv r c H) as [_ D]. auto.
Qed.

(** A starred class matches exactly the strings made of its units. *)
Lemma star_cls_forallb (p : Z -> bool) (s : jsstring) :
  matches (Star (Cls p)) s <-> forallb p s = true.
Proof.
  split.
  - intros M. remember (Star (Cls p)) as r eqn:R.
    induction M; try discriminate; [reflexivity |].
    injection R as ->. rewrite forallb_app, IHM2 by reflexivity.
    inversion M1; subst. simpl. rewrite H0. reflexivity.
  - induction s as [|c s IH]; simpl; intros H; [constructor |].
    apply andb_true_iff in H as [C A].
    change (c :: s) with ([c] ++ s). constructor; [constructor; exact C | auto].
Qed.

End RegexFacts.

(** ** Classification *)

Module Classify.
Import RegexFacts.

Lemma prefix_first_nil (p : Z -> bool) (a b : re) :
  test_prefix (Seq (Seq (Cls p) a) b) [] = false.
Proof. reflexivity. Qed.

Lemma prefix_first_false (p : Z -> bool) (a b : re) (c : Z) (s : jsstring) :
  p c = false -> test_prefix (Seq (Seq (Cls p) a) b) (c :: s) = false.
Proof.
  intros E. simpl. rewrite E. apply dead_test_prefix. reflexivity.
Qed.

Lemma reChapter_shape :
  exists a b, reChapter = Seq (Seq (Cls (ci 67)) a) b.
Proof. eexists; eexists; reflexivity. Qed.

Lemma reSection_shape :
  exists a b, reSection = Seq (Seq (Cls (ci 83)) a) b.
Proof. eexists; eexists; reflexivity. Qed.

Lemma ci_67 (c : Z) : ci 67 c = true -> c = 67 \/ c = 99.
Proof.
  unfold ci. change (upper 67) with true. cbv iota. lia.
Qed.

(** A line that matches the Chapter pattern starts with [C] or [c]. *)
Lemma isChapter_first (line : jsstring) :
  isChapter line = true -> exists c s, line = c :: s /\ (c = 67 \/ c = 99).
Proof.
  unfold isChapter. destruct reChapter_shape as (a & b & ->).
  destruct line as [|c s]; intros H.
  - rewrite prefix_first_nil in H. discriminate.
  - exists c, s. split; [reflexivity |]. apply ci_67.
    destruct (ci 67 c) eqn:E; [reflexivity |].
    rewrite (prefix_first_false _ _ _ _ _ E) in H. discriminate.
Qed.

(** Chapter excludes the numbered and the Roman pattern: they disagree
    on the first code unit. *)
Lemma isChapter_exclusive (line : jsstring) :
  isChapter line = true -> isNumbered line = false /\ isRoman line = false.
Proof.
  intros H. destruct (isChapter_first line H) as (c & s & -> & Hc).
  unfold isNumbered, isRoman, reNumbered, reRoman, Plus.
  split; apply prefix_first_false;
    unfold digit, romanClass, range, cor, chr; lia.
Qed.

(** The index guard of [isHeader] keeps the lookahead in range: the call
    never fails. *)
Lemma isHeader_total (line : jsstring) (allLines : list jsstring) (i : nat) :
  exists b, isHeader line allLines i = Some b.
Proof.
  unfold isHeader. destruct (100 <? length line)%nat; [eauto |].
  destruct (Z.of_nat i <? Z.of_nat (length allLines) - 1) eqn:G.
  - destruct (nth_error allLines (i + 1)) as [next|] eqn:E.
    + destruct (length line * 2 <? length (trim next))%nat; eauto.
    + apply nth_error_None in E. lia.
  - eauto.
Qed.

(** A line of at most 100 units that matches a pattern is a header,
    whatever follows it. *)
Lemma isHeader_pattern (line : jsstring) (allLines : list jsstring) (i : nat) :
  (length line <= 100)%nat ->
  existsb (fun pattern => pattern line) headerPatterns = true ->
  isHeader line allLines i = Some true.
Proof.
  intros L P. destruct (isHeader_total line allLines i) as [b E].
  rewrite E. revert E. unfold isHeader.
  destruct (Nat.ltb_spec 100 (length line)); [lia |].
  rewrite P.
  destruct (Z.of_nat i <? Z.of_nat (length allLines) - 1).
  - destruct (nth_error allLines (i + 1)) as [next|]; [| discriminate].
    destruct (length line * 2 <? length (trim next))%nat; congruence.
  - congruence.
Qed.

(** C5. A line longer than 100 code units is never classified as a
    header: [isHeader] answers false before it looks at the following
    line or at any of the header patterns. *)
Theorem long_line_never_header
    (line : jsstring) (allLines : list jsstring) (currentIndex : nat) :
  (100 < length line)%nat ->
  isHeader line allLines currentIndex = Some false.
Proof.
  intros L. unfold isHeader.
  destruct (Nat.ltb_spec 100 (length line)); [reflexivity | lia].
Qed.

(** A line of 101 capital letters: it matches the all-caps pattern and
    is not a header. *)
Lemma long_line_never_header_witness :
  (100 < length (repeat 65 101))%nat /\
  isAllCaps (repeat 65 101) = true /\
  isHeader (repeat 65 101) [repeat 65 101] 0 = Some false.
Proof.
  split; [simpl; lia |]. split; [vm_compute; reflexivity |].
  apply (long_line_never_header (repeat 65 101) [repeat 65 101] 0).
  simpl; lia.
Defined.

(** C6. The level of a header: 1 when the line matches the all-caps or
    the Chapter pattern, otherwise 2 when it matches the numbered, the
    Roman or the Section pattern, otherwise 3 (a title-case line, or a
    line that is a header only because a much longer line follows it).
    "CHAPTER OVERVIEW" is a header of level 1 and "1. Introduction" a
    header of level 2, whatever lines surround them. *)
Theorem header_level_precedence :
  (forall line,
      getHeaderLevel line =
      if isAllCaps line || isChapter line then 1
      else if isNumbered line || isRoman line || isSection line then 2
      else 3) /\
  (forall allLines i,
      isHeader (js "CHAPTER OVERVIEW") allLines i = Some true /\
      isHeader (js "1. Introduction") allLines i = Some true) /\
  getHeaderLevel (js "CHAPTER OVERVIEW") = 1 /\
  getHeaderLevel (js "1. Introduction") = 2 /\
  convertTextToHTML (js "CHAPTER OVERVIEW") = Some (js "<h1>CHAPTER OVERVIEW</h1>") /\
  convertTextToHTML (js "1. Introduction") = Some (js "<h2>1. Introduction</h2>").
Proof.
  split; [| split; [| repeat split; vm_compute; reflexivity]].
  - intros line. unfold getHeaderLevel.
    destruct (isAllCaps line); [reflexivity |]. simpl.
    destruct (isChapter line) eqn:C.
    + destruct (isChapter_exclusive line C) as [-> ->]. reflexivity.
    + destruct (isNumbered line); [reflexivity |].
      destruct (isRoman line); [reflexivity |].
      destruct (isSection line); reflexivity.
  - intros allLines i.
    split; apply isHeader_pattern; solve [simpl; lia | vm_compute; reflexivity].
Qed.

End Classify.

(** ** Trimming and splitting *)

Module StringFacts.

Lemma dropWhile_nil (p : Z -> bool) (s : jsstring) :
  dropWhile p s = [] <-> forallb p s = true.
Proof.
  induction s as [|c s IH]; simpl; [tauto |].
  destruct (p c); simpl; [exact IH |]. split; discriminate.
Qed.

Lemma dropWhile_head (p : Z -> bool) (s : jsstring) :
  forall c t, dropWhile p s = c :: t -> p c = false.
Proof.
  induction s as [|d s IH]; simpl; intros c t E; [discriminate |].
  destruct (p d) eqn:D; [eauto |]. injection E as -> _. exact D.
Qed.

Lemma dropWhile_split (p : Z -> bool) (s : jsstring) :
  exists run, s = run ++ dropWhile p s /\ forallb p run = true.
Proof.
  induction s as [|c s (run & E & R)]; simpl.
  - exists []. auto.
  - destruct (p c) eqn:C.
    + exists (c :: run). simpl. rewrite C, R. split; [f_equal; exact E | reflexivity].
    + exists []. auto.
Qed.

Lemma dropWhile_app_run (p : Z -> bool) (a s : jsstring) :
  forallb p a = true -> dropWhile p (a ++ s) = dropWhile p s.
Proof.
  induction a as [|c a IH]; simpl; [reflexivity |].
  intros H. apply andb_true_iff in H as [C A]. rewrite C. auto.
Qed.

Lemma isEmpty_true (s : jsstring) : isEmpty s = true <-> s = [].
Proof. destruct s; simpl; split; congruence. Qed.

Lemma forallb_rev (p : Z -> bool) (s : jsstring) :
  forallb p (rev s) = forallb p s.
Proof.
  induction s as [|c s IH]; simpl; [reflexivity |].
  rewrite forallb_app, IH. simpl. rewrite andb_true_r. apply andb_comm.
Qed.

(** [s.trim() === ''] exactly when every unit of [s] is white space. *)
Lemma isEmpty_trim (s : jsstring) :
  isEmpty (trim s) = forallb isWhiteSpace s.
Proof.
  apply eq_true_iff_eq. rewrite isEmpty_true. unfold trim, trimEnd, trimStart.
  split.
  - intros E.
    assert (D : dropWhile isWhiteSpace (rev (dropWhile isWhiteSpace s)) = []).
    { destruct (dropWhile isWhiteSpace (rev (dropWhile isWhiteSpace s)));
        [reflexivity |].
      simpl in E. apply app_eq_nil in E as [_ E]. discriminate. }
    apply dropWhile_nil in D. rewrite forallb_rev in D.
    destruct (dropWhile isWhiteSpace s) as [|c t] eqn:F.
    + apply dropWhile_nil. exact F.
    + apply dropWhile_head in F. simpl in D. rewrite F in D. discriminate.
  - intros A. apply dropWhile_nil in A. rewrite A. reflexivity.
Qed.

Lemma trim_blank (s : jsstring) :
  forallb isWhiteSpace s = true -> trim s = [].
Proof. rewrite <- isEmpty_trim. apply isEmpty_true. Qed.

Lemma split_nl_cons (s : jsstring) : exists l ls, split_nl s = l :: ls.
Proof.
  induction s as [|c s (l & ls & E)]; simpl; [eauto |].
  destruct (c =? 10); [eauto |]. rewrite E. eauto.
Qed.

(** Splitting at a line feed: the lines before it, then the lines after. *)
Lemma split_nl_app (p q : jsstring) :
  split_nl (p ++ 10 :: q) = split_nl p ++ split_nl q.
Proof.
  induction p as [|c p IH]; simpl; [reflexivity |].
  destruct (c =? 10); [rewrite IH; reflexivity |].
  rewrite IH. destruct (split_nl_cons p) as (l & ls & ->). reflexivity.
Qed.

Lemma forallb_split_nl (s : jsstring) :
  forallb (forallb isWhiteSpace) (split_nl s) = forallb isWhiteSpace s.
Proof.
  induction s as [|c s IH]; simpl; [reflexivity |].
  destruct (Z.eqb_spec c 10) as [-> | N].
  - simpl. exact IH.
  - destruct (split_nl_cons s) as (l & ls & E). rewrite E in *. simpl in *.
    rewrite <- IH. symmetry. apply andb_assoc.
Qed.

Lemma nonBlankLines_nil (text : jsstring) :
  nonBlankLines text = [] <-> forallb isWhiteSpace text = true.
Proof.
  unfold nonBlankLines. rewrite <- forallb_split_nl.
  induction (split_nl text) as [|l ls IH]; simpl; [tauto |].
  rewrite isEmpty_trim. destruct (forallb isWhiteSpace l); simpl; [exact IH |].
  split; discriminate.
Qed.

Lemma nonBlankLines_app (p q : jsstring) :
  nonBlankLines (p ++ 10 :: q) = nonBlankLines p ++ nonBlankLines q.
Proof. unfold nonBlankLines. rewrite split_nl_app. apply filter_app. Qed.

(** Every line the loop sees is non-blank. *)
Lemma nonBlankLines_In (text line : jsstring) :
  In line (nonBlankLines text) -> isEmpty (trim line) = false.
Proof.
  unfold nonBlankLines. rewrite filter_In. intros [_ H].
  apply negb_true_iff. exact H.
Qed.

End StringFacts.

(** ** Escaping *)

Module Escape.

Lemma replaceAll_app (cls : Z -> bool) (f : Z -> jsstring) (s t : jsstring) :
  replaceAll cls f (s ++ t) = replaceAll cls f s ++ replaceAll cls f t.
Proof.
  induction s as [|c s IH]; simpl; [reflexivity |].
  rewrite IH. apply app_assoc.
Qed.

Lemma replaceAll_plain (cls : Z -> bool) (f : Z -> jsstring) (s : jsstring) :
  forallb (fun c => negb (cls c)) s = true -> replaceAll cls f s = s.
Proof.
  induction s as [|c s IH]; simpl; [reflexivity |].
  intros H. apply andb_true_iff in H as [C A].
  apply negb_true_iff in C. rewrite C, (IH A). reflexivity.
Qed.

Lemma escapeHtml_app (s t : jsstring) :
  escapeHtml (s ++ t) = escapeHtml s ++ escapeHtml t.
Proof. apply replaceAll_app. Qed.

Lemma escapeHtml_unit (c : Z) :
  escapeHtml [c] =
  match c with
  | 38 => js "&amp;"
  | 60 => js "&lt;"
  | 62 => js "&gt;"
  | 34 => js "&quot;"
  | 39 => js "&#039;"
  | _ => [c]
  end.
Proof.
  unfold escapeHtml, replaceAll, escapeClass. rewrite app_nil_r.
  destruct (Z.eqb_spec c 38) as [-> | N1]; [reflexivity |].
  destruct (Z.eqb_spec c 60) as [-> | N2]; [reflexivity |].
  destruct (Z.eqb_spec c 62) as [-> | N3]; [reflexivity |].
  destruct (Z.eqb_spec c 34) as [-> | N4]; [reflexivity |].
  destruct (Z.eqb_spec c 39) as [-> | N5]; [reflexivity |].
  simpl.
  repeat match goal with
         | |- _ = match ?q with _ => _ end =>
             destruct q; try reflexivity; try congruence
         end.
Qed.

(** A string without the five units is left as it is. *)
Lemma escapeHtml_plain (s : jsstring) :
  forallb (fun c => negb (escapeClass c)) s = true -> escapeHtml s = s.
Proof. apply replaceAll_plain. Qed.

End Escape.

(** ** The loop *)

Module Builder.
Import Classify StringFacts.

Lemma processLine_total (lines : list jsstring) (i : nat) (st : state) :
  (i < length lines)%nat -> exists st', processLine lines i st = Some st'.
Proof.
  intros L. unfold processLine.
  destruct (nth_error lines i) as [raw|] eqn:E.
  - destruct (isEmpty (trim raw)); [eauto |].
    destruct (isHeader_total (trim raw) lines i) as [[|] ->]; [eauto |].
    destruct (isListItem (trim raw)); eauto.
  - apply nth_error_None in E. lia.
Qed.

Lemma loop_total (lines : list jsstring) (n : nat) :
  forall i st, (i + n <= length lines)%nat ->
               exists st', loop lines n i st = Some st'.
Proof.
  induction n as [|n IH]; intros i st L; simpl; [eauto |].
  destruct (processLine_total lines i st) as [st1 ->]; [lia |].
  apply IH. lia.
Qed.

Lemma build_total (text : jsstring) : exists st, build text = Some st.
Proof. apply loop_total. simpl. lia. Qed.

Lemma blank_early_return (text : jsstring) :
  isEmpty text || isEmpty (trim text) = forallb isWhiteSpace text.
Proof.
  rewrite isEmpty_trim. destruct text; reflexivity.
Qed.

(** The output is a function of the non-blank lines alone. *)
Lemma convert_by_lines (t1 t2 : jsstring) :
  nonBlankLines t1 = nonBlankLines t2 ->
  convertTextToHTML t1 = convertTextToHTML t2.
Proof.
  intros E. unfold convertTextToHTML, build.
  rewrite !blank_early_return, E.
  replace (forallb isWhiteSpace t1) with (forallb isWhiteSpace t2);
    [reflexivity |].
  apply eq_true_iff_eq. rewrite <- !nonBlankLines_nil, E. tauto.
Qed.

Lemma nonBlankLines_blank_between (p b q : jsstring) :
  forallb isWhiteSpace b = true ->
  nonBlankLines (p ++ nl ++ b ++ nl ++ q) = nonBlankLines (p ++ nl ++ q).
Proof.
  intros B. apply nonBlankLines_nil in B. unfold nl. simpl.
  rewrite !nonBlankLines_app, B. reflexivity.
Qed.

(** C7. The conversion always returns a string, and never the empty
    one: no call in it fails.  For the empty text and for a text made of
    white space only (blank lines) the result is the one paragraph that
    says no text content was found. *)
Theorem convert_total (text : jsstring) :
  (exists out, convertTextToHTML text = Some out /\ out <> []) /\
  convertTextToHTML [] = Some (js "<p>No text content found in the PDF.</p>") /\
  (forallb isWhiteSpace text = true ->
   convertTextToHTML text = Some (js "<p>No text content found in the PDF.</p>")).
Proof.
  split; [| split; [reflexivity |]].
  - unfold convertTextToHTML.
    destruct (isEmpty text || isEmpty (trim text)).
    + exists noTextFound. split; [reflexivity | discriminate].
    + destruct (build_total text) as [st ->].
      destruct (isEmpty (html (closeList (closeParagraph st)))) eqn:E.
      * exists noContent. split; [reflexivity | discriminate].
      * eexists. split; [reflexivity |].
        intros N. rewrite N in E. discriminate.
  - intros B. unfold convertTextToHTML.
    rewrite blank_early_return, B. reflexivity.
Qed.

(** Three blank lines: spaces, a tab, nothing. *)
Lemma convert_total_witness :
  forallb isWhiteSpace (js "  " ++ nl ++ [9] ++ nl) = true /\
  convertTextToHTML (js "  " ++ nl ++ [9] ++ nl) =
    Some (js "<p>No text content found in the PDF.</p>").
Proof.
  split; [reflexivity |].
  apply (proj2 (proj2 (convert_total (js "  " ++ nl ++ [9] ++ nl)))).
  reflexivity.
Defined.

(** C10. Blank lines do not count: a run [b] of white space (one blank
    line, or several) put between two lines, before the first line or
    after the last one leaves the output as it is, and so does taking it
    away.  The lines are filtered before the loop, so the lookahead of
    [isHeader] sees the next non-blank line and the blank-line branch of
    the loop closes nothing. *)
Theorem blank_lines_irrelevant (b : jsstring) :
  forallb isWhiteSpace b = true ->
  (forall p q,
      convertTextToHTML (p ++ nl ++ b ++ nl ++ q) = convertTextToHTML (p ++ nl ++ q)) /\
  (forall q, convertTextToHTML (b ++ nl ++ q) = convertTextToHTML q) /\
  (forall p, convertTextToHTML (p ++ nl ++ b) = convertTextToHTML p).
Proof.
  intros B. pose proof (proj2 (nonBlankLines_nil b) B) as N.
  split; [| split].
  - intros p q. apply convert_by_lines, nonBlankLines_blank_between, B.
  - intros q. apply convert_by_lines. unfold nl. simpl.
    rewrite nonBlankLines_app, N. reflexivity.
  - intros p. apply convert_by_lines. unfold nl. simpl.
    rewrite nonBlankLines_app, N. apply app_nil_r.
Qed.

(** A blank line of two spaces between a short line and a long one: the
    short line is a header by the lookahead in both texts. *)
Lemma blank_lines_irrelevant_witness :
  forallb isWhiteSpace (js "  ") = true /\
  convertTextToHTML (js "ab" ++ nl ++ js "  " ++ nl ++ js "cdefg") =
    convertTextToHTML (js "ab" ++ nl ++ js "cdefg") /\
  convertTextToHTML (js "ab" ++ nl ++ js "cdefg") =
    Some (js "<h3>ab</h3><p>cdefg </p>").
Proof.
  split; [reflexivity |]. split; [| vm_compute; reflexivity].
  apply (proj1 (blank_lines_irrelevant (js "  ") eq_refl) (js "ab") (js "cdefg")).
Defined.


(** *** The branches of the loop body *)

Lemma processLine_heading (lines : list jsstring) (i : nat) (st : state) (n : Z) :
  classify lines i = Some (Heading n) ->
  exists raw,
    nth_error lines i = Some raw /\
    n = getHeaderLevel (trim raw) /\
    processLine lines i st =
    Some (emit (closeList (closeParagraph st))
            (js "<h" ++ levelString n ++ js ">" ++ escapeHtml (trim raw)
             ++ js "</h" ++ levelString n ++ js ">")).
Proof.
  unfold classify, processLine. destruct (nth_error lines i) as [raw|]; [| discriminate].
  destruct (isEmpty (trim raw)); [discriminate |].
  destruct (isHeader (trim raw) lines i) as [[|]|]; try discriminate.
  - intros E. injection E as <-. exists raw. auto.
  - destruct (isListItem (trim raw)); discriminate.
Qed.

Lemma processLine_listItem (lines : list jsstring) (i : nat) (st : state) :
  classify lines i = Some ListItem ->
  exists raw,
    nth_error lines i = Some raw /\
    processLine lines i st =
    Some (mkState
            (html (closeParagraph st)
             ++ (if inList st then [] else js "<ul>")
             ++ js "<li>" ++ escapeHtml (listItemText (trim raw)) ++ js "</li>")
            true false).
Proof.
  unfold classify, processLine. destruct (nth_error lines i) as [raw|]; [| discriminate].
  destruct (isEmpty (trim raw)); [discriminate |].
  destruct (isHeader (trim raw) lines i) as [[|]|]; try discriminate.
  destruct (isListItem (trim raw)); [| discriminate].
  intros _. exists raw. split; [reflexivity |].
  unfold closeParagraph, emit.
  destruct st as [h l [|]], l; simpl; rewrite <- ?app_assoc; reflexivity.
Qed.

(** The paragraph branch opens a paragraph when none is open and appends
    the line and a space; it does not touch the list flag. *)
Lemma processLine_paragraph (lines : list jsstring) (i : nat) (st : state) :
  classify lines i = Some ParagraphText ->
  exists raw,
    nth_error lines i = Some raw /\
    processLine lines i st =
    Some (mkState
            (html st ++ (if inParagraph st then [] else js "<p>")
             ++ escapeHtml (trim raw) ++ js " ")
            (inList st) true).
Proof.
  unfold classify, processLine. destruct (nth_error lines i) as [raw|]; [| discriminate].
  destruct (isEmpty (trim raw)); [discriminate |].
  destruct (isHeader (trim raw) lines i) as [[|]|]; try discriminate.
  destruct (isListItem (trim raw)); [discriminate |].
  intros _. exists raw. split; [reflexivity |].
  unfold emit. destruct st as [h l [|]]; simpl; rewrite <- ?app_assoc; reflexivity.
Qed.

(** *** Escaped text inside unescaped tags *)

(** C8. [escapeHtml] works unit by unit: the ampersand, less-than,
    greater-than, double quote (34) and apostrophe (39) become their
    character references and every other unit is copied.  Each branch of
    the loop escapes the text of the line (heading text, list-item text,
    paragraph text) and writes the tags around it as they are.  The line
    "A & B < C" comes out as "A &amp; B &lt; C" inside its element. *)
Theorem escapeHtml_units :
  (forall s t, escapeHtml (s ++ t) = escapeHtml s ++ escapeHtml t) /\
  escapeHtml [] = [] /\
  (forall c,
      escapeHtml [c] =
      match c with
      | 38 => js "&amp;"
      | 60 => js "&lt;"
      | 62 => js "&gt;"
      | 34 => js "&quot;"
      | 39 => js "&#039;"
      | _ => [c]
      end) /\
  (forall lines i st,
      match classify lines i, nth_error lines i with
      | Some (Heading n), Some raw =>
          processLine lines i st =
          Some (emit (closeList (closeParagraph st))
                  (js "<h" ++ levelString n ++ js ">" ++ escapeHtml (trim raw)
                   ++ js "</h" ++ levelString n ++ js ">"))
      | Some ListItem, Some raw =>
          processLine lines i st =
          Some (mkState
                  (html (closeParagraph st)
                   ++ (if inList st then [] else js "<ul>")
                   ++ js "<li>" ++ escapeHtml (listItemText (trim raw)) ++ js "</li>")
                  true false)
      | Some ParagraphText, Some raw =>
          processLine lines i st =
          Some (mkState
                  (html st ++ (if inParagraph st then [] else js "<p>")
                   ++ escapeHtml (trim raw) ++ js " ")
                  (inList st) true)
      | _, _ => True
      end) /\
  escapeHtml (js "A & B < C") = js "A &amp; B &lt; C" /\
  convertTextToHTML (js "A & B < C") = Some (js "<p>A &amp; B &lt; C </p>") /\
  convertTextToHTML (js "- A & B < C") =
    Some (js "<ul><li>A &amp; B &lt; C</li></ul>") /\
  convertTextToHTML (js "Q&A" ++ nl ++ js "answers < questions") =
    Some (js "<h3>Q&amp;A</h3><p>answers &lt; questions </p>").
Proof.
  split; [exact Escape.escapeHtml_app |]. split; [reflexivity |].
  split; [exact Escape.escapeHtml_unit |].
  split; [| repeat split; vm_compute; reflexivity].
  intros lines i st.
  destruct (classify lines i) as [[| n | |]|] eqn:C;
    try (destruct (nth_error lines i); exact I).
  - destruct (processLine_heading lines i st n C) as (raw & -> & _ & Q). exact Q.
  - destruct (processLine_listItem lines i st C) as (raw & -> & Q). exact Q.
  - destruct (processLine_paragraph lines i st C) as (raw & -> & Q). exact Q.
Qed.

(** *** Lists, paragraphs and blank lines *)

(** C1. A list item directly followed by a paragraph line: the loop
    opens the paragraph without closing the list.  On the two lines
    "- a" and "b" the paragraph element is written inside the open list
    element, and on "- one", "two", "- six" the list element that holds the
    first item also holds the paragraph and the later item. *)
Theorem paragraph_after_list_item :
  classify [js "- a"; js "b"] 0 = Some ListItem /\
  classify [js "- a"; js "b"] 1 = Some ParagraphText /\
  convertTextToHTML (js "- a" ++ nl ++ js "b") =
    Some (js "<ul><li>a</li><p>b </p></ul>") /\
  convertTextToHTML (js "- one" ++ nl ++ js "two" ++ nl ++ js "- six") =
    Some (js "<ul><li>one</li><p>two </p><li>six</li></ul>").
Proof. repeat split; vm_compute; reflexivity. Qed.

(** C2. After the two lines "- a" and "b" the loop is left with both
    flags set: a list and a paragraph are open at once, and the markup
    written so far has the paragraph inside the list. *)
Theorem list_and_paragraph_both_open :
  exists st,
    build (js "- a" ++ nl ++ js "b") = Some st /\
    inList st = true /\
    inParagraph st = true /\
    html st = js "<ul><li>a</li><p>b ".
Proof. eexists. repeat split; vm_compute; reflexivity. Qed.

(** Two adjacent paragraph lines are merged: each is followed by one
    space inside the same paragraph element. *)
Lemma paragraph_lines_merge (lines : list jsstring) (i : nat) (st : state) :
  classify lines i = Some ParagraphText ->
  classify lines (S i) = Some ParagraphText ->
  exists a b,
    nth_error lines i = Some a /\ nth_error lines (S i) = Some b /\
    loop lines 2 i st =
    Some (mkState
            (html st ++ (if inParagraph st then [] else js "<p>")
             ++ escapeHtml (trim a) ++ js " " ++ escapeHtml (trim b) ++ js " ")
            (inList st) true).
Proof.
  intros A B.
  destruct (processLine_paragraph lines i st A) as (a & Ea & Pa).
  eexists a. 
  destruct (processLine_paragraph lines (S i)
              (mkState (html st ++ (if inParagraph st then [] else js "<p>")
                        ++ escapeHtml (trim a) ++ js " ") (inList st) true) B)
    as (b & Eb & Pb).
  exists b. split; [exact Ea |]. split; [exact Eb |].
  simpl loop. rewrite Pa, Pb. cbn [html inList inParagraph].
  rewrite <- !app_assoc. reflexivity.
Qed.

(** C3. Two paragraph lines are merged into one paragraph element, each
    followed by a space; the same two lines with a blank line between them
    are merged in the same way, because blank lines are filtered out
    before the loop: the output has one paragraph, not two. *)
Theorem blank_line_does_not_split :
  convertTextToHTML (js "first line" ++ nl ++ js "second line") =
    Some (js "<p>first line second line </p>") /\
  convertTextToHTML (js "first line" ++ nl ++ nl ++ js "second line") =
    Some (js "<p>first line second line </p>") /\
  nonBlankLines (js "first line" ++ nl ++ nl ++ js "second line") =
    [js "first line"; js "second line"].
Proof. repeat split; vm_compute; reflexivity. Qed.

End Builder.

(** ** List items *)

Module ListItems.
Import RegexFacts StringFacts.

Lemma stripClass_alnum (c : Z) :
  digit c || lower c = true -> stripClass c = false.
Proof.
  unfold digit, lower, range, stripClass, cor, space, isWhiteSpace, bulletClass.
  lia.
Qed.

Lemma stripClass_ordinary (c : Z) :
  ordinaryStart c = true -> stripClass c = false.
Proof.
  unfold ordinaryStart, stripClass, cor, space, bulletClass.
  destruct (isWhiteSpace c); simpl; [discriminate |]. lia.
Qed.

Lemma stripClass_whitespace (run : jsstring) :
  forallb isWhiteSpace run = true -> forallb stripClass run = true.
Proof.
  induction run as [|c run IH]; simpl; [reflexivity |].
  intros H. apply andb_true_iff in H as [C A].
  unfold stripClass at 1, cor, space. rewrite C. simpl. auto.
Qed.

(** When the bullet pattern matches a line that does not start with white
    space, the first unit is the marker and white space follows it. *)
Lemma reBullet_after_marker (m : Z) (rest : jsstring) :
  isWhiteSpace m = false ->
  test_prefix reBullet (m :: rest) = true ->
  exists w rest', rest = w :: rest' /\ isWhiteSpace w = true.
Proof.
  intros S H. apply test_prefix_matches in H as (p & q & E & M).
  unfold reBullet, Plus in M.
  inversion M as [| | ? ? s1 x1 M1 M2 | | | |]; subst.
  inversion M2 as [| | ? ? s2 x2 M3 M4 | | | |]; subst.
  inversion M3 as [| ? b B | | | | |]; subst.
  inversion M4 as [| | ? ? s3 s4 M5 M6 | | | |]; subst.
  inversion M5 as [| ? w W | | | | |]; subst.
  apply star_cls_forallb in M1.
  destruct s1 as [|c s1].
  - simpl in E. injection E as _ ->. exists w, (s4 ++ q). split; [reflexivity | exact W].
  - simpl in E. injection E as <- _. simpl in M1. unfold space in M1.
    rewrite S in M1. discriminate.
Qed.

(** A list item that starts with a hyphen or an asterisk is one by the
    bullet pattern. *)
Lemma hyphen_item_is_bullet (m : Z) (rest : jsstring) :
  m = 45 \/ m = 42 ->
  isListItem (m :: rest) = true -> test_prefix reBullet (m :: rest) = true.
Proof.
  unfold isListItem, listPatterns. cbn [existsb]. intros Hm L.
  rewrite !orb_true_iff in L.
  destruct L as [L | [L | [L | L]]]; [exact L | | | discriminate];
    exfalso; destruct Hm as [-> | ->]; simpl in L;
    rewrite dead_test_prefix in L by reflexivity; discriminate.
Qed.

(** Numbered and lettered markers are not stripped: the line "1. first"
    is a list item and is stored with its marker, and so is "a. first". *)
Lemma numbered_marker_kept :
  classify [js "1. first"] 0 = Some ListItem /\
  listItemText (js "1. first") = js "1. first" /\
  convertTextToHTML (js "1. first") = Some (js "<ul><li>1. first</li></ul>") /\
  classify [js "a. first"] 0 = Some ListItem /\
  listItemText (js "a. first") = js "a. first".
Proof. repeat split; vm_compute; reflexivity. Qed.

(** The bullet glyph U+2022 is not among the units of the class in the
    source file: a line that starts with it is not a list item. *)
Lemma bullet_glyph_line :
  bulletClass 8226 = false /\
  isListItem (8226 :: js " First point") = false /\
  convertTextToHTML (8226 :: js " First point") =
    Some (js "<p>" ++ 8226 :: js " First point </p>").
Proof. repeat split; vm_compute; reflexivity. Qed.

(** C4 (amended). A list item whose marker is a hyphen or an asterisk
    has white space after the marker, and when the text after that white
    space starts with an ordinary unit (or is empty) the marker and the
    white space are stripped: the stored text is that text, trimmed.  A
    list item that starts with a digit or a lowercase letter, as a
    numbered or lettered item does, is stored whole, marker included.
    Nothing is said of items whose marker or text starts with the bullet
    glyph or with a unit written in its place in the source file. *)
Theorem list_item_text_stripped (line : jsstring) :
  isListItem line = true ->
  (forall m rest,
      line = m :: rest -> m = 45 \/ m = 42 ->
      exists ws text,
        rest = ws ++ text /\
        ws <> [] /\
        forallb isWhiteSpace ws = true /\
        (forall c t, text = c :: t -> isWhiteSpace c = false) /\
        ((forall c t, text = c :: t -> ordinaryStart c = true) ->
         listItemText line = trim text)) /\
  (forall c t, line = c :: t -> digit c || lower c = true ->
               listItemText line = trim line).
Proof.
  intros L. split.
  - intros m rest -> Hm.
    pose proof (hyphen_item_is_bullet m rest Hm L) as B.
    assert (S : isWhiteSpace m = false) by (destruct Hm as [-> | ->]; reflexivity).
    assert (C : stripClass m = true) by (destruct Hm as [-> | ->]; reflexivity).
    destruct (reBullet_after_marker m rest S B) as (w & rest' & -> & W).
    destruct (dropWhile_split isWhiteSpace (w :: rest')) as (ws & E & R).
    remember (dropWhile isWhiteSpace (w :: rest')) as text eqn:T.
    exists ws, text.
    split; [exact E |]. split.
    { intros ->. rewrite app_nil_l in E. subst text. symmetry in E.
      apply dropWhile_head in E. congruence. }
    split; [exact R |]. split.
    { intros c t ->. symmetry in T. exact (dropWhile_head _ _ _ _ T). }
    intros O. unfold listItemText.
    change (dropWhile stripClass (m :: w :: rest'))
      with (if stripClass m then dropWhile stripClass (w :: rest')
            else m :: w :: rest').
    rewrite C, E.
    rewrite (dropWhile_app_run stripClass ws text (stripClass_whitespace ws R)).
    destruct text as [|c t]; [reflexivity |].
    cbn [dropWhile]. rewrite (stripClass_ordinary c (O c t eq_refl)). reflexivity.
  - intros c t -> A. unfold listItemText.
    simpl. rewrite (stripClass_alnum c A). reflexivity.
Qed.

(** A hyphen item and a numbered item. *)
Lemma list_item_text_stripped_witness :
  isListItem (js "- First point") = true /\
  (exists ws text,
      js " First point" = ws ++ text /\
      ws <> [] /\
      forallb isWhiteSpace ws = true /\
      (forall c t, text = c :: t -> isWhiteSpace c = false) /\
      ((forall c t, text = c :: t -> ordinaryStart c = true) ->
       listItemText (js "- First point") = trim text)) /\
  listItemText (js "- First point") = js "First point" /\
  isListItem (js "1. first") = true /\
  listItemText (js "1. first") = trim (js "1. first").
Proof.
  split; [reflexivity |]. split.
  - apply (proj1 (list_item_text_stripped (js "- First point") eq_refl)
             45 (js " First point") eq_refl (or_introl eq_refl)).
  - split; [reflexivity |]. split; [reflexivity |].
    apply (proj2 (list_item_text_stripped (js "1. first") eq_refl)
             49 (js ". first")); reflexivity.
Defined.

End ListItems.

(** ** Converting the stripped output again *)

Module RoundTrip.
Import Classify StringFacts Escape Builder.

(** *** The loop reads its lines through [trim] only *)

Lemma nth_error_trim (l1 l2 : list jsstring) (i : nat) :
  map trim l1 = map trim l2 ->
  option_map trim (nth_error l1 i) = option_map trim (nth_error l2 i).
Proof. intros E. rewrite <- !nth_error_map, E. reflexivity. Qed.

Lemma isHeader_trim_ext (line : jsstring) (l1 l2 : list jsstring) (i : nat) :
  map trim l1 = map trim l2 -> isHeader line l1 i = isHeader line l2 i.
Proof.
  intros E. unfold isHeader.
  assert (L : length l1 = length l2).
  { rewrite <- (length_map trim l1), E. apply length_map. }
  pose proof (nth_error_trim l1 l2 (i + 1) E) as N.
  rewrite L.
  destruct (nth_error l1 (i + 1)), (nth_error l2 (i + 1)); simpl in N;
    try discriminate; [injection N as -> |]; reflexivity.
Qed.

Lemma processLine_trim_ext (l1 l2 : list jsstring) (i : nat) (st : state) :
  map trim l1 = map trim l2 -> processLine l1 i st = processLine l2 i st.
Proof.
  intros E. unfold processLine.
  pose proof (nth_error_trim l1 l2 i E) as N.
  destruct (nth_error l1 i), (nth_error l2 i); simpl in N;
    try discriminate; [injection N as -> |]; [| reflexivity].
  rewrite (isHeader_trim_ext _ l1 l2 i E). reflexivity.
Qed.

Lemma loop_trim_ext (l1 l2 : list jsstring) (n : nat) :
  map trim l1 = map trim l2 ->
  forall i st, loop l1 n i st = loop l2 n i st.
Proof.
  intros E. induction n as [|n IH]; intros i st; simpl; [reflexivity |].
  rewrite (processLine_trim_ext l1 l2 i st E).
  destruct (processLine l2 i st); auto.
Qed.

(** *** Trimmed strings *)

Lemma dropWhile_idem (p : Z -> bool) (s : jsstring) :
  dropWhile p (dropWhile p s) = dropWhile p s.
Proof.
  destruct (dropWhile p s) as [|c t] eqn:E; [reflexivity |].
  apply dropWhile_head in E. simpl. rewrite E. reflexivity.
Qed.

Lemma dropWhile_stays (p : Z -> bool) (c : Z) (s t : jsstring) :
  p c = false -> dropWhile p (c :: s ++ t) = c :: s ++ t.
Proof. intros C. simpl. rewrite C. reflexivity. Qed.

(** A trimmed string followed by white space trims back to itself. *)
Lemma trim_trim_app (s b : jsstring) :
  forallb isWhiteSpace b = true -> trim (trim s ++ b) = trim s.
Proof.
  intros B. unfold trim, trimStart, trimEnd.
  set (t := dropWhile isWhiteSpace s).
  destruct (dropWhile_split isWhiteSpace (rev t)) as (run & R & A).
  set (u := dropWhile isWhiteSpace (rev t)) in *.
  assert (U : dropWhile isWhiteSpace u = u) by apply dropWhile_idem.
  destruct (rev u) as [|c v] eqn:V.
  - simpl. rewrite (proj2 (dropWhile_nil _ _) B). reflexivity.
  - assert (C : isWhiteSpace c = false).
    { apply (f_equal (@rev Z)) in R.
      rewrite rev_involutive, rev_app_distr, V in R. simpl in R.
      subst t. apply dropWhile_head in R. exact R. }
    change ((c :: v) ++ b) with (c :: v ++ b).
    rewrite (dropWhile_stays _ c v b C).
    change (c :: v ++ b) with ((c :: v) ++ b).
    rewrite rev_app_distr, dropWhile_app_run by (rewrite forallb_rev; exact B).
    rewrite <- V, rev_involutive, U. reflexivity.
Qed.

Lemma trim_idem (s : jsstring) : trim (trim s) = trim s.
Proof.
  rewrite <- (app_nil_r (trim s)) at 1. apply trim_trim_app. reflexivity.
Qed.

Lemma forallb_dropWhile (q p : Z -> bool) (s : jsstring) :
  forallb q s = true -> forallb q (dropWhile p s) = true.
Proof.
  induction s as [|c s IH]; simpl; [reflexivity |].
  intros H. destruct (p c); [apply andb_true_iff in H as [_ H]; auto | exact H].
Qed.

(** [trim] only removes units. *)
Lemma forallb_trim (q : Z -> bool) (s : jsstring) :
  forallb q s = true -> forallb q (trim s) = true.
Proof.
  intros H. unfold trim, trimEnd, trimStart.
  rewrite forallb_rev. apply forallb_dropWhile.
  rewrite forallb_rev. apply forallb_dropWhile. exact H.
Qed.

(** *** The first pass on headings and lone paragraph lines *)

Lemma blockAt_heading (lines : list jsstring) (i : nat) (n : Z) (raw : jsstring) :
  classify lines i = Some (Heading n) -> nth_error lines i = Some raw ->
  blockAt lines i =
  js "<h" ++ levelString n ++ js ">" ++ escapeHtml (trim raw)
  ++ js "</h" ++ levelString n ++ js ">".
Proof. intros C E. unfold blockAt. rewrite C, E. reflexivity. Qed.

Lemma blockAt_paragraph (lines : list jsstring) (i : nat) (raw : jsstring) :
  classify lines i = Some ParagraphText -> nth_error lines i = Some raw ->
  blockAt lines i = js "<p>" ++ escapeHtml (trim raw) ++ js " " ++ js "</p>".
Proof. intros C E. unfold blockAt. rewrite C, E. reflexivity. Qed.

Ltac run_flags :=
  unfold closeParagraph, closeList, emit; cbn [html inList inParagraph app].

(** Over headings and lone paragraph lines no list is opened, and each
    line adds its own element. *)
Lemma loop_blocks (lines : list jsstring) (n : nat) :
  forall i st,
    forallb (loneAt lines) (seq i n) = true ->
    inList st = false ->
    (inParagraph st = true -> isParagraphText (classify lines i) = false) ->
    exists st',
      loop lines n i st = Some st' /\
      inList st' = false /\
      html (closeParagraph st') =
      html (closeParagraph st) ++ concat (map (blockAt lines) (seq i n)).
Proof.
  induction n as [|n IH]; intros i st A L P.
  - exists st. simpl. rewrite app_nil_r. auto.
  - simpl in A. apply andb_true_iff in A as [A0 A].
    unfold loneAt in A0.
    destruct (classify lines i) as [[| lvl | |]|] eqn:C; try discriminate.
    + destruct (processLine_heading lines i st lvl C) as (raw & E & _ & Q).
      simpl loop. rewrite Q.
      match goal with |- context [loop lines n (S i) ?s] => set (st1 := s) end.
      assert (L1 : inList st1 = false).
      { subst st1. destruct st as [h l [|]]; simpl in L; subst l; reflexivity. }
      assert (P1 : inParagraph st1 = false).
      { subst st1. destruct st as [h l [|]]; simpl in L; subst l; reflexivity. }
      destruct (IH (S i) st1 A L1) as (st' & R & L' & H').
      { rewrite P1. discriminate. }
      exists st'. split; [exact R |]. split; [exact L' |].
      rewrite H'. simpl seq. simpl map. simpl concat.
      rewrite (blockAt_heading lines i lvl raw C E).
      subst st1. destruct st as [h l [|]]; simpl in L; subst l; run_flags;
        rewrite <- ?app_assoc; reflexivity.
    + destruct (processLine_paragraph lines i st C) as (raw & E & Q).
      simpl loop. rewrite Q.
      assert (N : inParagraph st = false).
      { destruct (inParagraph st); [| reflexivity].
        specialize (P eq_refl). discriminate. }
      match goal with |- context [loop lines n (S i) ?s] => set (st1 := s) end.
      destruct (IH (S i) st1 A) as (st' & R & L' & H').
      { exact L. }
      { intros _. apply negb_true_iff. exact A0. }
      exists st'. split; [exact R |]. split; [exact L' |].
      rewrite H'. simpl seq. simpl map. simpl concat.
      rewrite (blockAt_paragraph lines i raw C E).
      subst st1. destruct st as [h l q]; simpl in N; subst q; run_flags;
        rewrite <- ?app_assoc; reflexivity.
Qed.

(** *** Stripping the markup of the first pass *)

Lemma forallb_weaken (p q : Z -> bool) (s : jsstring) :
  (forall c, p c = true -> q c = true) ->
  forallb p s = true -> forallb q s = true.
Proof.
  intros W. induction s as [|c s IH]; simpl; [reflexivity |].
  intros H. apply andb_true_iff in H as [C A]. rewrite (W c C). auto.
Qed.

Lemma stripFrom_text (t rest : jsstring) :
  forallb (fun c => negb (c =? 60)) t = true ->
  stripFrom false (t ++ rest) = t ++ stripFrom false rest.
Proof.
  induction t as [|c t IH]; simpl; [reflexivity |].
  intros H. apply andb_true_iff in H as [C A].
  apply negb_true_iff in C. rewrite C, (IH A). reflexivity.
Qed.

Lemma getHeaderLevel_cases (line : jsstring) :
  getHeaderLevel line = 1 \/ getHeaderLevel line = 2 \/ getHeaderLevel line = 3.
Proof.
  unfold getHeaderLevel.
  destruct (isAllCaps line); auto. destruct (isNumbered line); auto.
  destruct (isRoman line); auto. destruct (isChapter line); auto.
  destruct (isSection line); auto.
Qed.

Lemma strip_h_open (n : Z) (x : jsstring) :
  n = 1 \/ n = 2 \/ n = 3 ->
  stripFrom false (js "<h" ++ levelString n ++ js ">" ++ x) =
  nl ++ stripFrom false x.
Proof. intros [-> | [-> | ->]]; reflexivity. Qed.

Lemma strip_h_close (n : Z) (x : jsstring) :
  n = 1 \/ n = 2 \/ n = 3 ->
  stripFrom false (js "</h" ++ levelString n ++ js ">" ++ x) =
  nl ++ stripFrom false x.
Proof. intros [-> | [-> | ->]]; reflexivity. Qed.

Lemma strip_heading (n : Z) (t rest : jsstring) :
  n = 1 \/ n = 2 \/ n = 3 ->
  forallb (fun c => negb (c =? 60)) t = true ->
  stripFrom false
    ((js "<h" ++ levelString n ++ js ">" ++ t ++ js "</h" ++ levelString n ++ js ">")
     ++ rest) =
  nl ++ t ++ nl ++ stripFrom false rest.
Proof.
  intros N T. rewrite <- !app_assoc.
  rewrite (strip_h_open n _ N), (stripFrom_text _ _ T), (strip_h_close n _ N).
  reflexivity.
Qed.

Lemma strip_paragraph (t rest : jsstring) :
  forallb (fun c => negb (c =? 60)) t = true ->
  stripFrom false ((js "<p>" ++ t ++ js " " ++ js "</p>") ++ rest) =
  nl ++ (t ++ js " ") ++ nl ++ stripFrom false rest.
Proof.
  intros T. rewrite <- !app_assoc.
  change (stripFrom false (js "<p>" ++ ?x)) with (nl ++ stripFrom false x).
  rewrite (stripFrom_text _ _ T). reflexivity.
Qed.

Lemma split_nl_plain (t : jsstring) :
  forallb (fun c => negb (c =? 10)) t = true -> split_nl t = [t].
Proof.
  induction t as [|c t IH]; simpl; [reflexivity |].
  intros H. apply andb_true_iff in H as [C A].
  apply negb_true_iff in C. rewrite C, (IH A). reflexivity.
Qed.

(** A non-blank text without line feeds, between two line feeds, is one
    more line. *)
Lemma nonBlankLines_line (t rest : jsstring) :
  forallb (fun c => negb (c =? 10)) t = true ->
  isEmpty (trim t) = false ->
  nonBlankLines (nl ++ t ++ nl ++ rest) = t :: nonBlankLines rest.
Proof.
  intros N B. change (nl ++ t ++ nl ++ rest) with ([] ++ 10 :: (t ++ 10 :: rest)).
  rewrite !nonBlankLines_app.
  unfold nonBlankLines at 2. rewrite (split_nl_plain t N). simpl filter.
  rewrite B. reflexivity.
Qed.

Lemma split_nl_no_nl (text : jsstring) :
  Forall (fun l => forallb (fun c => negb (c =? 10)) l = true) (split_nl text).
Proof.
  induction text as [|c text IH]; simpl; [repeat constructor |].
  destruct (c =? 10) eqn:C; [constructor; [reflexivity | exact IH] |].
  destruct (split_nl text) as [|l ls]; [repeat constructor; simpl; rewrite C; reflexivity |].
  inversion IH; subst. constructor; [simpl; rewrite C | ]; assumption.
Qed.

Lemma split_nl_forallb (q : Z -> bool) (text : jsstring) :
  forallb q text = true ->
  Forall (fun l => forallb q l = true) (split_nl text).
Proof.
  induction text as [|c text IH]; simpl; [repeat constructor |].
  intros H. apply andb_true_iff in H as [C A]. specialize (IH A).
  destruct (c =? 10); [constructor; [reflexivity | exact IH] |].
  destruct (split_nl text) as [|l ls]; [repeat constructor; simpl; rewrite C; reflexivity |].
  inversion IH; subst. constructor; [simpl; rewrite C | ]; assumption.
Qed.

Lemma Forall_nonBlankLines (P : jsstring -> Prop) (text : jsstring) :
  Forall P (split_nl text) -> Forall P (nonBlankLines text).
Proof.
  unfold nonBlankLines. rewrite !Forall_forall. intros H l I.
  apply filter_In in I as [I _]. auto.
Qed.

Lemma map_seq_nth_error {B : Type} (g : jsstring -> B) (l : list jsstring) :
  forall f : nat -> B,
    (forall i x, nth_error l i = Some x -> f i = g x) ->
    map f (seq 0 (length l)) = map g l.
Proof.
  induction l as [|a l IH]; intros f H; simpl; [reflexivity |].
  rewrite (H 0%nat a eq_refl). f_equal.
  rewrite <- seq_shift, map_map. apply IH.
  intros i x E. apply (H (S i)). exact E.
Qed.

Section SecondPass.

Variable lines : list jsstring.
Hypothesis Plain :
  Forall (fun l => forallb (fun c => negb (escapeClass c)) l = true) lines.
Hypothesis NoNl :
  Forall (fun l => forallb (fun c => negb (c =? 10)) l = true) lines.

Lemma lone_line (i : nat) :
  loneAt lines i = true ->
  exists raw,
    nth_error lines i = Some raw /\
    isEmpty (trim raw) = false /\
    (classify lines i = Some (Heading (getHeaderLevel (trim raw))) \/
     classify lines i = Some ParagraphText).
Proof.
  unfold loneAt, classify.
  destruct (nth_error lines i) as [raw|]; [| discriminate].
  destruct (isEmpty (trim raw)) eqn:B; [discriminate |].
  intros H. exists raw. split; [reflexivity |]. split; [exact B |].
  destruct (isHeader (trim raw) lines i) as [[|]|]; try discriminate; auto.
  destruct (isListItem (trim raw)); [discriminate | auto].
Qed.

Lemma trim_plain (i : nat) (raw : jsstring) :
  nth_error lines i = Some raw ->
  escapeHtml (trim raw) = trim raw /\
  forallb (fun c => negb (c =? 60)) (trim raw) = true /\
  forallb (fun c => negb (c =? 10)) (trim raw) = true.
Proof.
  intros E. apply nth_error_In in E.
  pose proof (proj1 (Forall_forall _ _) Plain raw E) as P.
  pose proof (proj1 (Forall_forall _ _) NoNl raw E) as N.
  simpl in P, N.
  split; [apply escapeHtml_plain, forallb_trim, P |].
  split; [| apply forallb_trim, N].
  apply forallb_trim. revert P. apply forallb_weaken.
  intros c. unfold escapeClass. lia.
Qed.

Lemma strip_blockAt (i : nat) (rest : jsstring) :
  loneAt lines i = true ->
  stripFrom false (blockAt lines i ++ rest) =
  nl ++ blockText lines i ++ nl ++ stripFrom false rest.
Proof.
  intros A. destruct (lone_line i A) as (raw & E & _ & [C | C]);
    destruct (trim_plain i raw E) as (X & T & _);
    unfold blockAt, blockText; rewrite C, E, X.
  - apply strip_heading; [apply getHeaderLevel_cases | exact T].
  - apply strip_paragraph. exact T.
Qed.

Lemma blockText_line (i : nat) :
  loneAt lines i = true ->
  exists raw,
    nth_error lines i = Some raw /\
    trim (blockText lines i) = trim raw /\
    isEmpty (trim (blockText lines i)) = false /\
    forallb (fun c => negb (c =? 10)) (blockText lines i) = true.
Proof.
  intros A. destruct (lone_line i A) as (raw & E & B & [C | C]);
    destruct (trim_plain i raw E) as (_ & _ & N);
    exists raw; (split; [exact E |]); unfold blockText; rewrite C, E.
  - rewrite trim_idem. auto.
  - rewrite trim_trim_app by reflexivity.
    split; [reflexivity |]. split; [exact B |].
    rewrite forallb_app, N. reflexivity.
Qed.

(** The lines of the stripped markup are the texts of the elements. *)
Lemma lines_of_stripped (idxs : list nat) :
  forallb (loneAt lines) idxs = true ->
  nonBlankLines (stripFrom false (concat (map (blockAt lines) idxs))) =
  map (blockText lines) idxs.
Proof.
  induction idxs as [|i idxs IH]; simpl; [reflexivity |].
  intros H. apply andb_true_iff in H as [A H].
  rewrite (strip_blockAt i _ A).
  destruct (blockText_line i A) as (raw & _ & _ & B & N).
  rewrite (nonBlankLines_line _ _ N B), (IH H). reflexivity.
Qed.

(** Trimmed, they are the trimmed lines of the first pass. *)
Lemma trim_blockTexts :
  headingsAndLoneParagraphs lines = true ->
  map trim (map (blockText lines) (seq 0 (length lines))) = map trim lines.
Proof.
  intros H. rewrite map_map. apply map_seq_nth_error.
  intros i x E.
  assert (A : loneAt lines i = true).
  { unfold headingsAndLoneParagraphs in H.
    rewrite forallb_forall in H. apply H, in_seq.
    pose proof (proj1 (nth_error_Some lines i)) as S.
    rewrite E in S. specialize (S ltac:(discriminate)). lia. }
  destruct (blockText_line i A) as (raw & E' & T & _).
  rewrite T. congruence.
Qed.

End SecondPass.

(** *** The round trip *)

Lemma closeList_closed (st : state) : inList st = false -> closeList st = st.
Proof. unfold closeList. intros ->. reflexivity. Qed.

Lemma inList_closeParagraph (st : state) : inList (closeParagraph st) = inList st.
Proof. unfold closeParagraph. destruct (inParagraph st); reflexivity. Qed.

(** The round-trip property as stated fails.  The list item "- a" comes
    back as a paragraph: its marker is not in the markup.  The paragraph
    lines "A" and "B" come back as one all-caps heading: they were
    merged into one line. *)
Lemma round_trip_fails :
  ~ roundTrip (js "- a") /\ ~ roundTrip (js "A" ++ nl ++ js "B").
Proof.
  split; intros H.
  - assert (E : convertTextToHTML (js "- a") = Some (js "<ul><li>a</li></ul>"))
      by (vm_compute; reflexivity).
    destruct (H eq_refl _ E) as (out' & E' & B).
    vm_compute in E'. injection E' as <-. vm_compute in B. discriminate.
  - assert (E : convertTextToHTML (js "A" ++ nl ++ js "B") = Some (js "<p>A B </p>"))
      by (vm_compute; reflexivity).
    destruct (H eq_refl _ E) as (out' & E' & B).
    vm_compute in E'. injection E' as <-. vm_compute in B. discriminate.
Qed.

(** C9 (amended). For a text that is not blank, has none of the five
    escaped units, and whose lines are all headings or paragraph lines
    with no two paragraph lines adjacent (so that no list is built and
    no two lines are merged), converting the stripped output again gives
    the same markup, hence the same block structure. *)
Theorem round_trip_headings_lone_paragraphs (text : jsstring) :
  forallb (fun c => negb (escapeClass c)) text = true ->
  forallb isWhiteSpace text = false ->
  headingsAndLoneParagraphs (nonBlankLines text) = true ->
  exists out,
    convertTextToHTML text = Some out /\
    convertTextToHTML (stripMarkup out) = Some out.
Proof.
  intros P W H. set (lines := nonBlankLines text) in *.
  assert (Plain : Forall (fun l => forallb (fun c => negb (escapeClass c)) l = true) lines)
    by apply Forall_nonBlankLines, split_nl_forallb, P.
  assert (NoNl : Forall (fun l => forallb (fun c => negb (c =? 10)) l = true) lines)
    by apply Forall_nonBlankLines, split_nl_no_nl.
  assert (NE : lines <> []).
  { intros E. apply nonBlankLines_nil in E. congruence. }
  destruct (loop_blocks lines (length lines) 0 initial H eq_refl)
    as (st & R & L & B); [discriminate |].
  simpl in B.
  set (out := html (closeList (closeParagraph st))).
  assert (O : out = concat (map (blockAt lines) (seq 0 (length lines)))).
  { subst out. rewrite closeList_closed by (rewrite inList_closeParagraph; exact L).
    exact B. }
  pose proof (lines_of_stripped lines Plain NoNl _ H) as S.
  rewrite <- O in S. fold (stripMarkup out) in S.
  assert (S0 : nonBlankLines (stripMarkup out) <> []).
  { rewrite S. destruct lines; [congruence | discriminate]. }
  assert (N : isEmpty out = false).
  { destruct out; [exfalso; apply S0; reflexivity | reflexivity]. }
  exists out. split.
  - unfold convertTextToHTML. rewrite blank_early_return, W.
    unfold build. fold lines. rewrite R. fold out. rewrite N. reflexivity.
  - unfold convertTextToHTML. rewrite blank_early_return.
    destruct (forallb isWhiteSpace (stripMarkup out)) eqn:W2.
    { apply nonBlankLines_nil in W2. congruence. }
    unfold build. rewrite S, length_map, length_seq.
    rewrite (loop_trim_ext _ lines) by (apply trim_blockTexts; assumption).
    rewrite R. fold out. rewrite N. reflexivity.
Qed.

(** Two headings, each followed by one paragraph line. *)
Lemma round_trip_headings_lone_paragraphs_witness :
  exists out,
    convertTextToHTML
      (js "CHAPTER OVERVIEW" ++ nl ++ js "this chapter explains the conversion"
       ++ nl ++ js "1. Introduction" ++ nl ++ js "some text") = Some out /\
    convertTextToHTML (stripMarkup out) = Some out.
Proof.
  apply (round_trip_headings_lone_paragraphs
           (js "CHAPTER OVERVIEW" ++ nl ++ js "this chapter explains the conversion"
            ++ nl ++ js "1. Introduction" ++ nl ++ js "some text"));
    vm_compute; reflexivity.
Defined.

End RoundTrip.

(** ** More on [escapeHtml] *)

Module EscapeProps.
Import Escape.

Lemma escapeHtml_cons (c : Z) (s : jsstring) :
  escapeHtml (c :: s) = escapeHtml [c] ++ escapeHtml s.
Proof. apply (escapeHtml_app [c] s). Qed.

Lemma escapeClass_cases (c : Z) :
  escapeClass c = true -> c = 38 \/ c = 60 \/ c = 62 \/ c = 34 \/ c = 39.
Proof. unfold escapeClass. lia. Qed.

Lemma escapeHtml_unit_plain (c : Z) :
  escapeClass c = false -> escapeHtml [c] = [c].
Proof.
  intros E. apply escapeHtml_plain. simpl. rewrite E. reflexivity.
Qed.

(** A unit of the class becomes an ampersand followed by at least three
    more units. *)
Lemma escapeHtml_unit_ref (c : Z) :
  escapeClass c = true ->
  exists x y z r, escapeHtml [c] = 38 :: x :: y :: z :: r.
Proof.
  intros E.
  destruct (escapeClass_cases c E) as [-> | [-> | [-> | [-> | ->]]]];
    do 4 eexists; reflexivity.
Qed.

Lemma escapeHtml_length (s : jsstring) :
  (length s <= length (escapeHtml s))%nat.
Proof.
  induction s as [|c s IH]; [simpl; lia |].
  rewrite escapeHtml_cons, length_app.
  destruct (escapeClass c) eqn:E.
  - destruct (escapeHtml_unit_ref c E) as (x & y & z & r & ->). simpl. lia.
  - rewrite (escapeHtml_unit_plain c E). simpl. lia.
Qed.

(** The length is kept only when nothing was escaped. *)
Lemma escapeHtml_length_eq (s : jsstring) :
  length (escapeHtml s) = length s ->
  forallb (fun c => negb (escapeClass c)) s = true.
Proof.
  induction s as [|c s IH]; [reflexivity |].
  rewrite escapeHtml_cons, length_app. simpl forallb.
  pose proof (escapeHtml_length s) as L.
  destruct (escapeClass c) eqn:E.
  - destruct (escapeHtml_unit_ref c E) as (x & y & z & r & ->). simpl. lia.
  - rewrite (escapeHtml_unit_plain c E). simpl. intros H. apply IH. lia.
Qed.

Lemma escapeHtml_has_amp (s : jsstring) :
  forallb (fun c => negb (escapeClass c)) (escapeHtml s) = true ->
  forallb (fun c => negb (escapeClass c)) s = true.
Proof.
  induction s as [|c s IH]; [reflexivity |].
  rewrite escapeHtml_cons, forallb_app. simpl forallb.
  destruct (escapeClass c) eqn:E.
  - destruct (escapeHtml_unit_ref c E) as (x & y & z & r & ->). simpl. discriminate.
  - rewrite (escapeHtml_unit_plain c E). simpl. rewrite E. exact IH.
Qed.

Lemma escapeHtml_clean (text : jsstring) :
  forallb (fun c => negb ((c =? 60) || (c =? 62) || (c =? 34) || (c =? 39)))
    (escapeHtml text) = true.
Proof.
  induction text as [|c s IH]; [reflexivity |].
  rewrite escapeHtml_cons, forallb_app, IH, andb_true_r.
  destruct (escapeClass c) eqn:E.
  - destruct (escapeClass_cases c E) as [-> | [-> | [-> | [-> | ->]]]]; reflexivity.
  - rewrite (escapeHtml_unit_plain c E). simpl. rewrite andb_true_r.
    unfold escapeClass in E. apply negb_true_iff. lia.
Qed.

(** X1. The escaped text has no less-than sign, greater-than sign, double
    quote or apostrophe left, whatever the text was: it cannot open or
    close a tag or an attribute value. *)
Theorem escapeHtml_no_markup (text : jsstring) :
  forallb (fun c => negb ((c =? 60) || (c =? 62) || (c =? 34) || (c =? 39)))
    (escapeHtml text) = true /\
  (forall pre post, escapeHtml text <> pre ++ 60 :: post) /\
  (forall pre post, escapeHtml text <> pre ++ 62 :: post).
Proof.
  pose proof (escapeHtml_clean text) as C.
  split; [exact C |].
  split; intros pre post E; rewrite E, forallb_app in C;
    apply andb_true_iff in C as [_ C]; simpl in C; discriminate.
Qed.

(** X2. Escaping loses nothing: two texts with the same escaped form are
    the same text. *)
Theorem escapeHtml_injective (s t : jsstring) :
  escapeHtml s = escapeHtml t -> s = t.
Proof.
  revert t. induction s as [|c s IH]; intros [|d t] H.
  - reflexivity.
  - rewrite escapeHtml_cons in H. destruct (escapeClass d) eqn:D.
    + destruct (escapeHtml_unit_ref d D) as (x & y & z & r & E).
      rewrite E in H. discriminate.
    + rewrite (escapeHtml_unit_plain d D) in H. discriminate.
  - rewrite escapeHtml_cons in H. destruct (escapeClass c) eqn:C.
    + destruct (escapeHtml_unit_ref c C) as (x & y & z & r & E).
      rewrite E in H. discriminate.
    + rewrite (escapeHtml_unit_plain c C) in H. discriminate.
  - rewrite (escapeHtml_cons c), (escapeHtml_cons d) in H.
    destruct (escapeClass c) eqn:C, (escapeClass d) eqn:D.
    + destruct (escapeClass_cases c C) as [-> | [-> | [-> | [-> | ->]]]];
        destruct (escapeClass_cases d D) as [-> | [-> | [-> | [-> | ->]]]];
        try (simpl in H; discriminate);
        f_equal; apply IH; simpl in H; congruence.
    + rewrite (escapeHtml_unit_plain d D) in H.
      destruct (escapeHtml_unit_ref c C) as (x & y & z & r & E).
      rewrite E in H. simpl in H. injection H as <- _.
      discriminate.
    + rewrite (escapeHtml_unit_plain c C) in H.
      destruct (escapeHtml_unit_ref d D) as (x & y & z & r & E).
      rewrite E in H. simpl in H. injection H as -> _.
      discriminate.
    + rewrite (escapeHtml_unit_plain c C), (escapeHtml_unit_plain d D) in H.
      simpl in H. injection H as -> H. f_equal. apply IH. exact H.
Qed.

Lemma escapeHtml_injective_witness :
  escapeHtml (js "a<b") = escapeHtml (js "a<b") /\ js "a<b" = js "a<b".
Proof.
  split; [reflexivity |].
  apply (escapeHtml_injective (js "a<b") (js "a<b")). reflexivity.
Defined.

(** X3. Escaping is not idempotent: escaping an escaped text again gives
    the same result exactly when the text had nothing to escape; any
    escaped unit is escaped a second time through its ampersand. *)
Theorem escapeHtml_twice (text : jsstring) :
  escapeHtml (escapeHtml text) = escapeHtml text <->
  forallb (fun c => negb (escapeClass c)) text = true.
Proof.
  split.
  - intros H. apply escapeHtml_has_amp, escapeHtml_length_eq.
    rewrite H. reflexivity.
  - intros P. rewrite (escapeHtml_plain text P). exact (escapeHtml_plain text P).
Qed.

Lemma escapeHtml_twice_witness :
  escapeHtml (escapeHtml (js "plain text")) = escapeHtml (js "plain text") /\
  escapeHtml (escapeHtml (js "a & b")) <> escapeHtml (js "a & b").
Proof.
  split.
  - apply (proj2 (escapeHtml_twice (js "plain text"))). reflexivity.
  - intros H. apply (proj1 (escapeHtml_twice (js "a & b"))) in H. discriminate.
Defined.

End EscapeProps.

(** ** More on the classification of lines *)

Module ClassifyProps.
Import RegexFacts Classify StringFacts.

Lemma matches_first (r : re) (t : jsstring) :
  matches r t -> forall c s, t = c :: s -> firstOk r c = true.
Proof.
  induction 1; intros c0 u E; simpl; try discriminate.
  - injection E as -> _. assumption.
  - destruct s1 as [|c1 s1]; simpl in E.
    + rewrite (IHmatches2 _ _ E).
      rewrite (proj2 (nullable_matches r1)) by assumption.
      apply orb_true_r.
    + injection E as -> _. rewrite (IHmatches1 _ _ eq_refl). reflexivity.
  - rewrite (IHmatches _ _ E). reflexivity.
  - rewrite (IHmatches _ _ E). apply orb_true_r.
  - destruct s1 as [|c1 s1]; simpl in E.
    + exact (IHmatches2 _ _ E).
    + injection E as -> _. exact (IHmatches1 _ _ eq_refl).
Qed.

Lemma test_full_first (r : re) (c : Z) (s : jsstring) :
  test_full r (c :: s) = true -> firstOk r c = true.
Proof.
  intros H. apply test_full_matches in H. exact (matches_first _ _ H _ _ eq_refl).
Qed.

Lemma test_prefix_first (r : re) (c : Z) (s : jsstring) :
  nullable r = false -> test_prefix r (c :: s) = true -> firstOk r c = true.
Proof.
  intros N H. apply test_prefix_matches in H as (p & q & E & M).
  destruct p as [|c' p].
  - apply nullable_matches in M. congruence.
  - simpl in E. injection E as -> _. exact (matches_first _ _ M _ _ eq_refl).
Qed.

Lemma ci_83 (c : Z) : ci 83 c = true -> c = 83 \/ c = 115.
Proof. unfold ci. change (upper 83) with true. cbv iota. lia. Qed.

(** A line that matches one of the six header patterns starts with a
    capital letter, a digit, [c] or [s]. *)
Lemma headerPatterns_first (line : jsstring) :
  existsb (fun pattern => pattern line) headerPatterns = true ->
  exists c s,
    line = c :: s /\
    (upper c || digit c || (c =? 99) || (c =? 115)) = true.
Proof.
  destruct line as [|c s]; [intros H; vm_compute in H; discriminate |].
  intros H. exists c, s. split; [reflexivity |].
  simpl in H. rewrite !orb_true_iff in H.
  destruct H as [H | [H | [H | [H | [H | [H | H]]]]]]; try discriminate.
  - apply test_full_first in H. simpl in H.
    rewrite orb_false_r in H. rewrite H. reflexivity.
  - apply test_full_first in H. simpl in H.
    rewrite orb_false_r in H. rewrite H. reflexivity.
  - apply test_prefix_first in H; [| reflexivity]. simpl in H.
    rewrite !orb_false_r in H. rewrite H. apply orb_true_iff. left.
    apply orb_true_iff. left. apply orb_true_r.
  - apply test_prefix_first in H; [| reflexivity]. simpl in H.
    rewrite !orb_false_r in H.
    assert (U : upper c = true).
    { revert H. unfold romanClass, cor, chr, upper, range. lia. }
    rewrite U. reflexivity.
  - apply test_prefix_first in H; [| reflexivity].
    assert (U : ci 67 c = true).
    { revert H. simpl. rewrite !orb_false_r. tauto. }
    apply ci_67 in U. unfold upper, range. destruct U as [-> | ->]; reflexivity.
  - apply test_prefix_first in H; [| reflexivity].
    assert (U : ci 83 c = true).
    { revert H. simpl. rewrite !orb_false_r. tauto. }
    apply ci_83 in U. unfold upper, range. destruct U as [-> | ->]; reflexivity.
Qed.

(** X9. A line is a header only if it has at most 100 units and either
    the next line, trimmed, is more than twice as long, or the line
    starts with a capital letter, a digit, [c] or [s]: a line that starts
    with any other unit is never a header by its own shape. *)
Theorem header_needs_lookahead_or_first_unit
    (line : jsstring) (allLines : list jsstring) (currentIndex : nat) :
  isHeader line allLines currentIndex = Some true ->
  (length line <= 100)%nat /\
  ((exists next,
       nth_error allLines (currentIndex + 1) = Some next /\
       (length line * 2 < length (trim next))%nat) \/
   (exists c s,
       line = c :: s /\
       (upper c || digit c || (c =? 99) || (c =? 115)) = true)).
Proof.
  unfold isHeader. destruct (Nat.ltb_spec 100 (length line)) as [G | G];
    [discriminate |].
  intros H. split; [exact G |].
  destruct (Z.of_nat currentIndex <? Z.of_nat (length allLines) - 1).
  - destruct (nth_error allLines (currentIndex + 1)) as [next|]; [| discriminate].
    destruct (Nat.ltb_spec (length line * 2) (length (trim next))) as [D | D].
    + left. exists next. auto.
    + right. apply headerPatterns_first. congruence.
  - right. apply headerPatterns_first. congruence.
Qed.

(** The last line "Summary" is a header by its capital; the line "ab" is
    one by the longer line after it. *)
Lemma header_needs_lookahead_or_first_unit_witness :
  isHeader (js "Summary") [js "Summary"] 0 = Some true /\
  (exists c s, js "Summary" = c :: s /\ upper c = true) /\
  isHeader (js "ab") [js "ab"; js "cdefg"] 0 = Some true.
Proof.
  split; [reflexivity |]. split; [| reflexivity].
  destruct (header_needs_lookahead_or_first_unit (js "Summary") [js "Summary"] 0 eq_refl)
    as [_ [(next & E & _) | _]]; [discriminate E |].
  exists 83, (js "ummary"). split; reflexivity.
Defined.



(** A line the numbered header pattern matches is also matched by the
    numbered list pattern. *)
Lemma isNumbered_isListItem (line : jsstring) :
  isNumbered line = true -> isListItem line = true.
Proof.
  unfold isNumbered, isListItem. intros H. simpl.
  apply test_prefix_matches in H as (p & q & E & M).
  unfold reNumbered in M.
  inversion M as [| | ? ? d x1 Md M1 | | | |]; subst.
  inversion M1 as [| | ? ? dot x2 Mdot M2 | | | |]; subst.
  inversion M2 as [| | ? ? w u Mw Mu | | | |]; subst.
  assert (T : test_prefix reNumberedItem ((d ++ dot ++ w) ++ (u ++ q)) = true).
  { apply test_prefix_matches. exists (d ++ dot ++ w), (u ++ q).
    split; [reflexivity |]. unfold reNumberedItem.
    change (d ++ dot ++ w) with ([] ++ d ++ dot ++ w).
    repeat constructor; assumption. }
  rewrite <- !app_assoc in T. rewrite <- !app_assoc. rewrite T.
  apply orb_true_iff. right. reflexivity.
Qed.

Lemma isNumbered_not_allCaps (line : jsstring) :
  isNumbered line = true -> isAllCaps line = false.
Proof.
  destruct line as [|c s]; [discriminate |]. intros H.
  apply test_prefix_first in H; [| reflexivity]. simpl in H.
  rewrite !orb_false_r in H.
  destruct (isAllCaps (c :: s)) eqn:A; [| reflexivity].
  apply test_full_first in A. simpl in A. rewrite orb_false_r in A.
  revert H A. unfold digit, upper, range. lia.
Qed.

(** X8. The header test comes before the list test: a numbered line
    whose text starts with a capital letter ("1. Introduction") matches
    the numbered list pattern, but with at most 100 units it is always a
    heading of level 2 and never a list item of the output. *)
Theorem numbered_capital_is_heading
    (lines : list jsstring) (i : nat) (raw : jsstring) :
  nth_error lines i = Some raw ->
  isNumbered (trim raw) = true ->
  (length (trim raw) <= 100)%nat ->
  isListItem (trim raw) = true /\ classify lines i = Some (Heading 2).
Proof.
  intros E N L. split; [apply isNumbered_isListItem, N |].
  unfold classify. rewrite E.
  destruct (trim raw) as [|c s] eqn:T; [discriminate |].
  cbn [isEmpty].
  rewrite (isHeader_pattern (c :: s) lines i L).
  - unfold getHeaderLevel. rewrite (isNumbered_not_allCaps _ N), N. reflexivity.
  - simpl. rewrite N. rewrite !orb_true_r. reflexivity.
Qed.

Lemma numbered_capital_is_heading_witness :
  isListItem (trim (js "2. Methods")) = true /\
  classify [js "1. first step"; js "2. Methods"] 1 = Some (Heading 2) /\
  classify [js "1. first step"; js "2. Methods"] 0 = Some ListItem.
Proof.
  destruct (numbered_capital_is_heading
              [js "1. first step"; js "2. Methods"] 1 (js "2. Methods")
              eq_refl eq_refl) as [A B]; [vm_compute; lia |].
  split; [exact A |]. split; [exact B | reflexivity].
Defined.

(** X13. The loop never meets a blank line: every line of the filtered
    list has a role other than blank, so the branch of the loop that
    closes the open paragraph and list on an empty line is never taken. *)
Theorem blank_branch_unreachable (text : jsstring) (i : nat) :
  (i < length (nonBlankLines text))%nat ->
  exists role,
    classify (nonBlankLines text) i = Some role /\ role <> Blank.
Proof.
  intros L. unfold classify.
  destruct (nth_error (nonBlankLines text) i) as [raw|] eqn:E.
  - rewrite (nonBlankLines_In text raw (nth_error_In _ _ E)).
    destruct (isHeader_total (trim raw) (nonBlankLines text) i) as [[|] ->].
    + eexists. split; [reflexivity | discriminate].
    + destruct (isListItem (trim raw)); eexists; (split; [reflexivity | discriminate]).
  - apply nth_error_None in E. lia.
Qed.

Lemma blank_branch_unreachable_witness :
  (1 < length (nonBlankLines (js "a" ++ nl ++ js "  " ++ nl ++ js "b")))%nat /\
  exists role,
    classify (nonBlankLines (js "a" ++ nl ++ js "  " ++ nl ++ js "b")) 1 = Some role /\
    role <> Blank.
Proof.
  assert (L : (1 < length (nonBlankLines (js "a" ++ nl ++ js "  " ++ nl ++ js "b")))%nat)
    by (vm_compute; lia).
  split; [exact L |].
  exact (blank_branch_unreachable (js "a" ++ nl ++ js "  " ++ nl ++ js "b") 1 L).
Defined.

(** X16. The lookahead wins over every other test: a non-blank line of
    at most 100 units whose next line, trimmed, is more than twice as
    long is a heading, whatever it looks like, a list item included; it
    keeps its marker in the heading text. *)
Theorem short_line_before_long_is_heading
    (lines : list jsstring) (i : nat) (raw next : jsstring) :
  nth_error lines i = Some raw ->
  nth_error lines (i + 1) = Some next ->
  isEmpty (trim raw) = false ->
  (length (trim raw) <= 100)%nat ->
  (length (trim raw) * 2 < length (trim next))%nat ->
  classify lines i = Some (Heading (getHeaderLevel (trim raw))) /\
  forall st,
    processLine lines i st =
    Some (emit (closeList (closeParagraph st))
            (js "<h" ++ levelString (getHeaderLevel (trim raw)) ++ js ">"
             ++ escapeHtml (trim raw)
             ++ js "</h" ++ levelString (getHeaderLevel (trim raw)) ++ js ">")).
Proof.
  intros E N B L D.
  assert (H : isHeader (trim raw) lines i = Some true).
  { unfold isHeader.
    destruct (Nat.ltb_spec 100 (length (trim raw))) as [G | G]; [lia |].
    assert (I : (i + 1 < length lines)%nat).
    { apply nth_error_Some. rewrite N. discriminate. }
    destruct (Z.ltb_spec (Z.of_nat i) (Z.of_nat (length lines) - 1)) as [G' | G'];
      [| lia].
    rewrite N.
    destruct (Nat.ltb_spec (length (trim raw) * 2) (length (trim next))); [reflexivity | lia]. }
  split.
  - unfold classify. rewrite E, B, H. reflexivity.
  - intros st. unfold processLine. rewrite E, B, H. reflexivity.
Qed.

Lemma short_line_before_long_is_heading_witness :
  classify [js "- a"; js "a much longer line"] 0 = Some (Heading 3) /\
  convertTextToHTML (js "- a" ++ nl ++ js "a much longer line") =
    Some (js "<h3>- a</h3><p>a much longer line </p>").
Proof.
  split; [| vm_compute; reflexivity].
  apply (proj1 (short_line_before_long_is_heading
                  [js "- a"; js "a much longer line"] 0
                  (js "- a") (js "a much longer line")
                  eq_refl eq_refl eq_refl ltac:(simpl; lia) ltac:(simpl; lia))).
Defined.

End ClassifyProps.

(** ** The markup that is written *)

Module MarkupProps.
Import Classify StringFacts Escape EscapeProps Builder RoundTrip.

Lemma scan_app (a : jsstring) :
  forall stack tag b,
    scan stack tag (a ++ b) =
    match scan stack tag a with
    | Some (stack', tag') => scan stack' tag' b
    | None => None
    end.
Proof.
  induction a as [|c a IH]; intros stack tag b; simpl; [reflexivity |].
  destruct tag as [acc|].
  - destruct (c =? 62).
    + destruct (applyTag (rev acc) stack); [apply IH | reflexivity].
    + destruct (c =? 60); [reflexivity | apply IH].
  - destruct (c =? 60); [apply IH |].
    destruct (c =? 62); [reflexivity | apply IH].
Qed.

Lemma scan_text (t : jsstring) (stack : list jsstring) :
  forallb (fun c => negb ((c =? 60) || (c =? 62) || (c =? 34) || (c =? 39))) t = true ->
  scan stack None t = Some (stack, None).
Proof.
  induction t as [|c t IH]; simpl; [reflexivity |].
  intros H. apply andb_true_iff in H as [C A].
  apply negb_true_iff in C.
  destruct (c =? 60); [discriminate |]. destruct (c =? 62); [discriminate |].
  auto.
Qed.

Lemma scan_escaped (stack : list jsstring) (t : jsstring) :
  scan stack None (escapeHtml t) = Some (stack, None).
Proof. apply scan_text, escapeHtml_clean. Qed.

Ltac scan_lit :=
  match goal with
  | |- context [scan ?s ?t (js ?l)] =>
      let v := eval vm_compute in (scan s t (js l)) in
      change (scan s t (js l)) with v
  | |- context [scan ?s ?t (levelString ?n)] =>
      let v := eval vm_compute in (scan s t (levelString n)) in
      change (scan s t (levelString n)) with v
  end.

Ltac scan_go :=
  repeat first
    [ rewrite scan_escaped | rewrite app_nil_l | rewrite scan_app | scan_lit
    | progress cbv beta iota ].

Ltac set_flags :=
  unfold openElements, closeParagraph, closeList, emit in *;
  cbn [html inList inParagraph negb] in *.

Lemma some_eq {A : Type} (x y : A) : Some x = Some y -> x = y.
Proof. congruence. Qed.

(** The flags describe the markup written so far: scanning it leaves
    exactly the elements of the set flags open, the paragraph innermost. *)
Lemma processLine_scan (lines : list jsstring) (i : nat) (st st' : state) :
  scan [] None (html st) = Some (openElements st, None) ->
  processLine lines i st = Some st' ->
  scan [] None (html st') = Some (openElements st', None).
Proof.
  intros I. unfold processLine.
  destruct (nth_error lines i) as [raw|]; [| discriminate].
  destruct (isEmpty (trim raw)).
  - intros E. apply some_eq in E. subst st'.
    destruct st as [h [|] [|]]; set_flags;
      rewrite <- ?app_assoc; try exact I;
      rewrite scan_app, I; cbv beta iota; scan_go; reflexivity.
  - destruct (isHeader (trim raw) lines i) as [[|]|]; [| | discriminate].
    + intros E. apply some_eq in E. subst st'.
      destruct (getHeaderLevel_cases (trim raw)) as [-> | [-> | ->]];
        destruct st as [h [|] [|]]; set_flags;
        rewrite <- ?app_assoc;
        rewrite scan_app, I; cbv beta iota; scan_go; reflexivity.
    + destruct (isListItem (trim raw)); intros E; apply some_eq in E; subst st';
        destruct st as [h [|] [|]]; set_flags;
        rewrite <- ?app_assoc;
        rewrite scan_app, I; cbv beta iota; scan_go; reflexivity.
Qed.

Lemma loop_scan (lines : list jsstring) (n : nat) :
  forall i st st',
    scan [] None (html st) = Some (openElements st, None) ->
    loop lines n i st = Some st' ->
    scan [] None (html st') = Some (openElements st', None).
Proof.
  induction n as [|n IH]; intros i st st' I; simpl.
  - intros E. apply some_eq in E. subst st'. exact I.
  - destruct (processLine lines i st) as [st1|] eqn:P; [| discriminate].
    apply IH. exact (processLine_scan lines i st st1 I P).
Qed.

Lemma close_scan (st : state) :
  scan [] None (html st) = Some (openElements st, None) ->
  scan [] None (html (closeList (closeParagraph st))) = Some ([], None).
Proof.
  intros I.
  destruct st as [h [|] [|]]; set_flags;
    rewrite <- ?app_assoc; try exact I;
    rewrite scan_app, I; cbv beta iota; scan_go; reflexivity.
Qed.

(** X4. The markup returned is well nested for every text: every tag is
    complete, every element is closed before the element around it, and
    elements are opened only at the top level ([p], [ul], [h1] to [h3])
    or directly inside a list ([li], and [p] when a paragraph line
    follows a list item).  No element is ever left open. *)
Theorem output_well_nested (text : jsstring) :
  exists out, convertTextToHTML text = Some out /\ wellNested out = true.
Proof.
  unfold convertTextToHTML.
  destruct (isEmpty text || isEmpty (trim text)).
  - exists noTextFound. split; reflexivity.
  - destruct (build_total text) as [st B]. rewrite B.
    assert (I : scan [] None (html (closeList (closeParagraph st))) = Some ([], None)).
    { apply close_scan.
      exact (loop_scan _ _ 0%nat initial st eq_refl B). }
    destruct (isEmpty (html (closeList (closeParagraph st)))).
    + exists noContent. split; reflexivity.
    + eexists. split; [reflexivity |]. unfold wellNested. rewrite I. reflexivity.
Qed.

(** *** The text between the tags *)

Lemma content_app (a : jsstring) :
  forall inTag b,
    content inTag (a ++ b) =
    (fst (content inTag a) ++ fst (content (snd (content inTag a)) b),
     snd (content (snd (content inTag a)) b)).
Proof.
  induction a as [|c a IH]; intros inTag b; simpl.
  - destruct (content inTag b). reflexivity.
  - destruct inTag.
    + apply IH.
    + destruct (c =? 60); [apply IH |].
      rewrite IH. destruct (content false a). reflexivity.
Qed.

Lemma content_text (t : jsstring) :
  forallb (fun c => negb ((c =? 60) || (c =? 62) || (c =? 34) || (c =? 39))) t = true ->
  content false t = (t, false).
Proof.
  induction t as [|c t IH]; simpl; [reflexivity |].
  intros H. apply andb_true_iff in H as [C A].
  apply negb_true_iff in C.
  destruct (c =? 60); [discriminate |]. rewrite (IH A). reflexivity.
Qed.

Lemma content_escaped (t : jsstring) :
  content false (escapeHtml t) = (escapeHtml t, false).
Proof. apply content_text, escapeHtml_clean. Qed.

Ltac content_lit :=
  match goal with
  | |- context [content ?b (js ?l)] =>
      let v := eval vm_compute in (content b (js l)) in
      change (content b (js l)) with v
  | |- context [content ?b (levelString ?n)] =>
      let v := eval vm_compute in (content b (levelString n)) in
      change (content b (levelString n)) with v
  end.

Ltac content_go :=
  repeat first
    [ rewrite content_escaped | rewrite content_app | content_lit
    | progress cbn [fst snd] ].

(** Each iteration adds the text of its line to the text between the
    tags, and nothing else. *)
Lemma processLine_content (lines : list jsstring) (i : nat) (st st' : state)
    (sofar : jsstring) :
  content false (html st) = (sofar, false) ->
  processLine lines i st = Some st' ->
  content false (html st') = (sofar ++ leafText lines i, false).
Proof.
  intros I. unfold processLine, leafText, classify.
  destruct (nth_error lines i) as [raw|]; [| discriminate].
  destruct (isEmpty (trim raw)).
  - intros E. apply some_eq in E. subst st'.
    destruct st as [h [|] [|]]; set_flags;
      rewrite <- ?app_assoc;
      try (rewrite content_app, I); content_go;
      rewrite ?app_nil_r, ?I; reflexivity.
  - destruct (isHeader (trim raw) lines i) as [[|]|]; [| | discriminate].
    + intros E. apply some_eq in E. subst st'.
      destruct (getHeaderLevel_cases (trim raw)) as [-> | [-> | ->]];
        destruct st as [h [|] [|]]; set_flags;
        rewrite <- ?app_assoc;
        rewrite content_app, I; content_go;
        cbn [app]; rewrite ?app_nil_r; reflexivity.
    + destruct (isListItem (trim raw)); intros E; apply some_eq in E; subst st';
        destruct st as [h [|] [|]]; set_flags;
        rewrite <- ?app_assoc;
        rewrite content_app, I; content_go;
        cbn [app]; rewrite ?app_nil_r; reflexivity.
Qed.

Lemma loop_content (lines : list jsstring) (n : nat) :
  forall i st st' sofar,
    content false (html st) = (sofar, false) ->
    loop lines n i st = Some st' ->
    content false (html st') =
    (sofar ++ concat (map (leafText lines) (seq i n)), false).
Proof.
  induction n as [|n IH]; intros i st st' sofar I; simpl.
  - intros E. apply some_eq in E. subst st'. rewrite app_nil_r. exact I.
  - destruct (processLine lines i st) as [st1|] eqn:P; [| discriminate].
    intros L. rewrite app_assoc.
    exact (IH (S i) st1 st' _ (processLine_content lines i st st1 sofar I P) L).
Qed.

Lemma close_content (st : state) (sofar : jsstring) :
  content false (html st) = (sofar, false) ->
  content false (html (closeList (closeParagraph st))) = (sofar, false).
Proof.
  intros I.
  destruct st as [h [|] [|]]; set_flags;
    rewrite <- ?app_assoc; try exact I;
    rewrite content_app, I; content_go; rewrite ?app_nil_r; reflexivity.
Qed.

(** *** The markup is never empty *)

Lemma processLine_grows (lines : list jsstring) (i : nat) (st st' : state)
    (raw : jsstring) :
  nth_error lines i = Some raw ->
  isEmpty (trim raw) = false ->
  processLine lines i st = Some st' ->
  (length (html st) < length (html st'))%nat.
Proof.
  intros E B. unfold processLine. rewrite E, B.
  destruct (isHeader (trim raw) lines i) as [[|]|]; [| | discriminate].
  - intros Q. apply some_eq in Q. subst st'.
    destruct st as [h [|] [|]]; set_flags; rewrite !length_app; simpl; lia.
  - destruct (isListItem (trim raw)); intros Q; apply some_eq in Q; subst st';
      destruct st as [h [|] [|]]; set_flags; rewrite !length_app; simpl; lia.
Qed.

Lemma loop_grows (lines : list jsstring) (n : nat) :
  Forall (fun raw => isEmpty (trim raw) = false) lines ->
  forall i st st',
    (i + n <= length lines)%nat ->
    loop lines n i st = Some st' ->
    (length (html st) + n <= length (html st'))%nat.
Proof.
  intros NB. induction n as [|n IH]; intros i st st' L; simpl.
  - intros E. apply some_eq in E. subst st'. lia.
  - destruct (processLine lines i st) as [st1|] eqn:P; [| discriminate].
    intros Q. specialize (IH (S i) st1 st' ltac:(lia) Q).
    destruct (nth_error lines i) as [raw|] eqn:E.
    + pose proof (proj1 (Forall_forall _ _) NB raw (nth_error_In _ _ E)) as B.
      pose proof (processLine_grows lines i st st1 raw E B P). lia.
    + apply nth_error_None in E. lia.
Qed.

Lemma nonBlankLines_nonblank (text : jsstring) :
  Forall (fun raw => isEmpty (trim raw) = false) (nonBlankLines text).
Proof. apply Forall_forall. intros raw. apply nonBlankLines_In. Qed.

Lemma close_grows (st : state) :
  (length (html st) <= length (html (closeList (closeParagraph st))))%nat.
Proof.
  destruct st as [h [|] [|]]; set_flags; rewrite ?length_app; lia.
Qed.

Lemma build_writes (text : jsstring) :
  forallb isWhiteSpace text = false ->
  exists st,
    build text = Some st /\
    (length (nonBlankLines text) <= length (html st))%nat /\
    nonBlankLines text <> [] /\
    convertTextToHTML text = Some (html (closeList (closeParagraph st))).
Proof.
  intros W. destruct (build_total text) as [st B]. exists st.
  assert (NE : nonBlankLines text <> []).
  { intros E. apply nonBlankLines_nil in E. congruence. }
  assert (G : (length (nonBlankLines text) <= length (html st))%nat).
  { pose proof (loop_grows (nonBlankLines text) (length (nonBlankLines text))
                  (nonBlankLines_nonblank text) 0%nat initial st
                  (Nat.le_refl _) B) as G.
    simpl in G. exact G. }
  split; [exact B |]. split; [exact G |]. split; [exact NE |].
  unfold convertTextToHTML. rewrite blank_early_return, W, B.
  pose proof (close_grows st) as C.
  destruct (html (closeList (closeParagraph st))) as [|c r] eqn:H.
  - destruct (nonBlankLines text); [congruence | simpl in *; lia].
  - reflexivity.
Qed.

(** X6. For a text that is not blank the loop always writes something,
    at least one unit for each non-blank line, so the result is the
    markup built by the loop: the fallback paragraph at the end of the
    function, for markup that stayed empty, is never returned. *)
Theorem markup_never_empty (text : jsstring) :
  forallb isWhiteSpace text = false ->
  exists st,
    build text = Some st /\
    html st <> [] /\
    (length (nonBlankLines text) <= length (html st))%nat /\
    convertTextToHTML text = Some (html (closeList (closeParagraph st))).
Proof.
  intros W. destruct (build_writes text W) as (st & B & G & NE & C).
  exists st. split; [exact B |]. split; [| split; [exact G | exact C]].
  intros E. rewrite E in G. destruct (nonBlankLines text); [congruence | simpl in G; lia].
Qed.

Lemma markup_never_empty_witness :
  forallb isWhiteSpace (js "- -") = false /\
  exists st,
    build (js "- -") = Some st /\
    html st <> [] /\
    (length (nonBlankLines (js "- -")) <= length (html st))%nat /\
    convertTextToHTML (js "- -") = Some (html (closeList (closeParagraph st))).
Proof.
  split; [reflexivity |]. apply (markup_never_empty (js "- -")). reflexivity.
Defined.

(** X5. Nothing is lost and nothing is invented: for a text that is not
    blank, the text between the tags of the result is, in the order of
    the lines, the escaped text of every non-blank line: the trimmed
    line for a heading, the stored item text for a list item, the
    trimmed line and one space for a paragraph line. *)
Theorem output_text_is_the_lines (text : jsstring) :
  forallb isWhiteSpace text = false ->
  exists out,
    convertTextToHTML text = Some out /\
    textContent out =
    concat (map (leafText (nonBlankLines text))
              (seq 0 (length (nonBlankLines text)))).
Proof.
  intros W. destruct (build_writes text W) as (st & B & _ & _ & C).
  eexists. split; [exact C |].
  unfold textContent.
  rewrite (close_content st _ (loop_content _ _ 0%nat initial st [] eq_refl B)).
  reflexivity.
Qed.

Lemma output_text_is_the_lines_witness :
  forallb isWhiteSpace (js "Title" ++ nl ++ js "- a < b" ++ nl ++ js "  tail") = false /\
  exists out,
    convertTextToHTML (js "Title" ++ nl ++ js "- a < b" ++ nl ++ js "  tail") = Some out /\
    textContent out = js "Titlea &lt; btail ".
Proof.
  split; [reflexivity |].
  destruct (output_text_is_the_lines
              (js "Title" ++ nl ++ js "- a < b" ++ nl ++ js "  tail") eq_refl)
    as (out & C & T).
  exists out. split; [exact C |]. rewrite T. vm_compute. reflexivity.
Defined.

End MarkupProps.

(** ** Whole texts *)

Module Texts.
Import Classify StringFacts Escape Builder RoundTrip MarkupProps.

(** X7. Only the trimmed non-blank lines count: two texts whose
    non-blank lines agree after trimming give the same result, so
    indentation and trailing white space never change the output. *)
Theorem output_by_trimmed_lines (t1 t2 : jsstring) :
  map trim (nonBlankLines t1) = map trim (nonBlankLines t2) ->
  convertTextToHTML t1 = convertTextToHTML t2.
Proof.
  intros E. unfold convertTextToHTML, build. rewrite !blank_early_return.
  assert (L : length (nonBlankLines t1) = length (nonBlankLines t2)).
  { rewrite <- (length_map trim (nonBlankLines t1)), E. apply length_map. }
  replace (forallb isWhiteSpace t1) with (forallb isWhiteSpace t2).
  - rewrite L, (loop_trim_ext _ _ _ E). reflexivity.
  - apply eq_true_iff_eq. rewrite <- !nonBlankLines_nil.
    destruct (nonBlankLines t1), (nonBlankLines t2); simpl in L;
      try discriminate; split; intros; congruence.
Qed.

Lemma output_by_trimmed_lines_witness :
  map trim (nonBlankLines (js "   - one  " ++ nl ++ [9] ++ js "two")) =
  map trim (nonBlankLines (js "- one" ++ nl ++ js "two")) /\
  convertTextToHTML (js "   - one  " ++ nl ++ [9] ++ js "two") =
  convertTextToHTML (js "- one" ++ nl ++ js "two").
Proof.
  split; [reflexivity |].
  apply (output_by_trimmed_lines (js "   - one  " ++ nl ++ [9] ++ js "two")
           (js "- one" ++ nl ++ js "two")).
  reflexivity.
Defined.

Lemma role_at {P : option LineRole -> bool} (lines : list jsstring) (i : nat)
    (raw : jsstring) :
  forallb (fun j => P (classify lines j)) (seq 0 (length lines)) = true ->
  nth_error lines i = Some raw ->
  P (classify lines i) = true.
Proof.
  intros H E. rewrite forallb_forall in H. apply H, in_seq.
  pose proof (proj1 (nth_error_Some lines i)) as S.
  rewrite E in S. specialize (S ltac:(discriminate)). lia.
Qed.

Lemma leafText_listItem (lines : list jsstring) (i : nat) (raw : jsstring) :
  classify lines i = Some ListItem -> nth_error lines i = Some raw ->
  leafText lines i = escapeHtml (listItemText (trim raw)).
Proof. intros C E. unfold leafText. rewrite C, E. reflexivity. Qed.

Lemma leafText_paragraph (lines : list jsstring) (i : nat) (raw : jsstring) :
  classify lines i = Some ParagraphText -> nth_error lines i = Some raw ->
  leafText lines i = escapeHtml (trim raw) ++ js " ".
Proof. intros C E. unfold leafText. rewrite C, E. reflexivity. Qed.

Lemma isListItemRole_true (r : option LineRole) :
  isListItemRole r = true -> r = Some ListItem.
Proof. destruct r as [[| | |]|]; simpl; congruence. Qed.

Lemma isParagraphText_true (r : option LineRole) :
  isParagraphText r = true -> r = Some ParagraphText.
Proof. destruct r as [[| | |]|]; simpl; congruence. Qed.

(** Inside an open list, list items only add items. *)
Lemma loop_list_items (lines : list jsstring) (n : nat) :
  forall i st,
    forallb (fun j => isListItemRole (classify lines j)) (seq i n) = true ->
    inList st = true ->
    inParagraph st = false ->
    loop lines n i st =
    Some (mkState
            (html st
             ++ concat (map (fun j => js "<li>" ++ leafText lines j ++ js "</li>")
                          (seq i n)))
            true false).
Proof.
  induction n as [|n IH]; intros i st A L P; simpl.
  - rewrite app_nil_r. destruct st as [h l p]. simpl in L, P. subst. reflexivity.
  - simpl in A. apply andb_true_iff in A as [A0 A].
    apply isListItemRole_true in A0.
    destruct (processLine_listItem lines i st A0) as (raw & E & Q).
    rewrite Q. rewrite IH; [| exact A | reflexivity | reflexivity]. cbn [html].
    rewrite (leafText_listItem lines i raw A0 E).
    destruct st as [h l p]. simpl in L, P. subst. set_flags.
    rewrite <- !app_assoc. reflexivity.
Qed.

(** Inside an open paragraph, paragraph lines only add text. *)
Lemma loop_paragraphs (lines : list jsstring) (n : nat) :
  forall i st,
    forallb (fun j => isParagraphText (classify lines j)) (seq i n) = true ->
    inParagraph st = true ->
    loop lines n i st =
    Some (mkState (html st ++ concat (map (leafText lines) (seq i n)))
            (inList st) true).
Proof.
  induction n as [|n IH]; intros i st A P; simpl.
  - rewrite app_nil_r. destruct st as [h l p]. simpl in P. subst. reflexivity.
  - simpl in A. apply andb_true_iff in A as [A0 A].
    apply isParagraphText_true in A0.
    destruct (processLine_paragraph lines i st A0) as (raw & E & Q).
    rewrite Q. rewrite IH; [| exact A | reflexivity]. cbn [html inList].
    rewrite (leafText_paragraph lines i raw A0 E), P.
    rewrite <- !app_assoc. reflexivity.
Qed.

Lemma loop_all_list_items (lines : list jsstring) :
  lines <> [] ->
  forallb (fun j => isListItemRole (classify lines j)) (seq 0 (length lines)) = true ->
  loop lines (length lines) 0 initial =
  Some (mkState
          (js "<ul>"
           ++ concat (map (fun raw =>
                             js "<li>" ++ escapeHtml (listItemText (trim raw))
                             ++ js "</li>")
                        lines))
          true false).
Proof.
  intros NE A.
  rewrite <- (map_seq_nth_error
                (fun raw => js "<li>" ++ escapeHtml (listItemText (trim raw)) ++ js "</li>")
                lines
                (fun j => js "<li>" ++ leafText lines j ++ js "</li>")).
  2:{ intros i x E.
      rewrite (leafText_listItem lines i x
                 (isListItemRole_true _ (role_at lines i x A E)) E).
      reflexivity. }
  destruct (length lines) as [|m] eqn:L.
  { apply length_zero_iff_nil in L. congruence. }
  cbn [seq forallb] in A. apply andb_true_iff in A as [A0 A].
  apply isListItemRole_true in A0.
  destruct (processLine_listItem lines 0 initial A0) as (raw & E & Q).
  cbn [loop]. rewrite Q.
  rewrite loop_list_items; [| exact A | reflexivity | reflexivity].
  cbn [seq map concat html]. set_flags.
  rewrite (leafText_listItem lines 0 raw A0 E).
  rewrite <- !app_assoc. reflexivity.
Qed.

(** X14. A text whose non-blank lines are all list items becomes one
    list: one opening tag, one item for each line with its stored text
    escaped, in order, and one closing tag. *)
Theorem list_items_make_one_list (text : jsstring) :
  forallb isWhiteSpace text = false ->
  forallb (fun j => isListItemRole (classify (nonBlankLines text) j))
    (seq 0 (length (nonBlankLines text))) = true ->
  convertTextToHTML text =
  Some (js "<ul>"
        ++ concat (map (fun raw =>
                          js "<li>" ++ escapeHtml (listItemText (trim raw))
                          ++ js "</li>")
                     (nonBlankLines text))
        ++ js "</ul>").
Proof.
  intros W A. destruct (build_writes text W) as (st & B & _ & NE & C).
  rewrite C. f_equal. unfold build in B.
  rewrite (loop_all_list_items _ NE A) in B.
  apply some_eq in B. subst st. set_flags.
  rewrite <- !app_assoc. reflexivity.
Qed.

Lemma list_items_make_one_list_witness :
  convertTextToHTML (js "- one" ++ nl ++ js "* two" ++ nl ++ js "3. three") =
  Some (js "<ul><li>one</li><li>two</li><li>3. three</li></ul>").
Proof.
  rewrite (list_items_make_one_list
             (js "- one" ++ nl ++ js "* two" ++ nl ++ js "3. three"));
    vm_compute; reflexivity.
Defined.

Lemma loop_all_paragraphs (lines : list jsstring) :
  lines <> [] ->
  forallb (fun j => isParagraphText (classify lines j)) (seq 0 (length lines)) = true ->
  loop lines (length lines) 0 initial =
  Some (mkState
          (js "<p>"
           ++ concat (map (fun raw => escapeHtml (trim raw) ++ js " ") lines))
          false true).
Proof.
  intros NE A.
  rewrite <- (map_seq_nth_error
                (fun raw => escapeHtml (trim raw) ++ js " ") lines
                (leafText lines)).
  2:{ intros i x E.
      exact (leafText_paragraph lines i x
               (isParagraphText_true _ (role_at lines i x A E)) E). }
  destruct (length lines) as [|m] eqn:L.
  { apply length_zero_iff_nil in L. congruence. }
  cbn [seq forallb] in A. apply andb_true_iff in A as [A0 A].
  apply isParagraphText_true in A0.
  destruct (processLine_paragraph lines 0 initial A0) as (raw & E & Q).
  cbn [loop]. rewrite Q.
  rewrite loop_paragraphs; [| exact A | reflexivity].
  cbn [seq map concat html inList]. set_flags.
  rewrite (leafText_paragraph lines 0 raw A0 E).
  rewrite <- !app_assoc. reflexivity.
Qed.

(** X15. A text whose non-blank lines are all paragraph lines becomes one
    paragraph: every line, trimmed and escaped, followed by one space. *)
Theorem paragraph_lines_make_one_paragraph (text : jsstring) :
  forallb isWhiteSpace text = false ->
  forallb (fun j => isParagraphText (classify (nonBlankLines text) j))
    (seq 0 (length (nonBlankLines text))) = true ->
  convertTextToHTML text =
  Some (js "<p>"
        ++ concat (map (fun raw => escapeHtml (trim raw) ++ js " ")
                     (nonBlankLines text))
        ++ js "</p>").
Proof.
  intros W A. destruct (build_writes text W) as (st & B & _ & NE & C).
  rewrite C. f_equal. unfold build in B.
  rewrite (loop_all_paragraphs _ NE A) in B.
  apply some_eq in B. subst st. set_flags.
  rewrite <- !app_assoc. reflexivity.
Qed.

Lemma paragraph_lines_make_one_paragraph_witness :
  convertTextToHTML (js "first line" ++ nl ++ js "second <b> line" ++ nl ++ js "the end") =
  Some (js "<p>first line second &lt;b&gt; line the end </p>").
Proof.
  rewrite (paragraph_lines_make_one_paragraph
             (js "first line" ++ nl ++ js "second <b> line" ++ nl ++ js "the end"));
    vm_compute; reflexivity.
Defined.

End Texts.
